(** * spanner_orm.condition: conditions of a Spanner query

    A shallow embedding of [spanner_orm/condition.py].  Condition objects
    are mutable Python objects: [bind] writes the [model] slot (and, for
    [IncludesCondition], the [relation] slot) of the receiver.  They are
    kept in a store indexed by object identity, so that a condition that
    is reachable from several places (the list handed to [includes], the
    conditions of a relation) is one object. *)

From Stdlib Require Import ZArith Ascii String List.
From stdpp Require Import base option list strings gmap.

Local Set Warnings "-register-all".

Open Scope string_scope.

(** ** Python values and exceptions *)

(** [class OrderType(enum.Enum)] *)
Inductive OrderType := ASC | DESC.

(** [class Segment(enum.Enum)] *)
Inductive Segment := WHERE | ORDER_BY | LIMIT | JOIN.

(** The Python values that reach a condition as a comparison value, a
    limit, an offset or an ordering direction. *)
Inductive Value :=
| VNone
| VBool (b : bool)
| VInt (z : Z)
| VStr (s : string)
| VOrder (o : OrderType)
| VList (l : list Value).

(** The payload of [error.SpannerError]: the message, with the formatted
    value kept as a value. *)
Inductive SpannerMsg :=
| MustBeBound (method : string)
| NotInt (v : Value)
| NotOrderType (v : Value).

(** The exceptions raised here.  [NoSuchObject] is what the embedding
    answers for a reference that names no object of the store; a Python
    program holds no such reference. *)
Inductive exn :=
| SpannerError (msg : SpannerMsg)
| AssertionError
| KeyError (key : string)
| RecursionError
| AttributeError (attribute : string)
| NoSuchObject.

Inductive res (A : Type) :=
| Ok (a : A)
| Raise (e : exn).
Arguments Ok {A} a.
Arguments Raise {A} e.

Definition res_bind {A B} (r : res A) (k : A -> res B) : res B :=
  match r with
  | Ok a => k a
  | Raise e => Raise e
  end.

Notation "x <- r ;; k" := (res_bind r (fun x => k))
  (at level 100, r at next level, right associativity).
Notation "r ;;; k" := (res_bind r (fun _ => k))
  (at level 100, right associativity).

(** [assert b] *)
Definition assert (b : bool) : res unit :=
  if b then Ok tt else Raise AssertionError.

(** ** The collaborators: fields, relations, models *)

(** [type_pb2.Type]: a wire type descriptor. *)
Inductive TypeCode := BOOL | INT64 | FLOAT64 | TIMESTAMP | STRING | BYTES.

Inductive WireType :=
| PbType (code : TypeCode)
| PbArray (element : TypeCode).

(** Modelled from the spec: the field descriptor of [spanner_orm.field],
    which is outside this file's sources.  It is taken as the data the
    conditions read from it: the logical field type (a class, compared by
    identity, named here by its class name), the nullability flag, the
    two wire types and the validator, which raises on a value it does not
    accept. *)
Record Field := mkField {
  field_type : string;
  nullable : bool;
  grpc_type : WireType;
  grpc_list_type : WireType;
  validate : Value -> res unit
}.

(** Object identity of a condition. *)
Abbreviation ref := nat (only parsing).

(** A model class, as far as conditions use it, and the relation
    descriptors it owns. *)
Inductive Model := mkModel {
  table : string;
  column_prefix : string;
  schema : gmap string Field;
  relations : gmap string Relation
}
with Relation := mkRelation {
  rel_conditions : list ref;
  rel_destination : Model
}.

(** ** Condition objects *)

(** The operator table of the comparison family: one constructor per
    concrete subclass of [ComparisonCondition]. *)
Inductive Comparison :=
| GreaterThan | GreaterThanOrEqual | LessThan | LessThanOrEqual
| InList | NotInList
| Equality | Inequality.

(** The instance attributes set by each [__init__], the [model] slot of
    [Condition.__init__] apart. *)
Inductive Body :=
| ColumnsEqualCondition (column : string) (destination_model : Model)
    (destination_column : string)
| IncludesCondition (name : string) (_conditions : list ref)
    (relation : option Relation)
| LimitCondition (limit offset : Value)
| OrderByCondition (orderings : list (string * OrderType))
| ComparisonCondition (op : Comparison) (column : string) (value : Value).

Record Condition := mkCondition {
  model : option Model;
  body : Body
}.

(** The store: the condition objects alive, by identity. *)
Abbreviation store := (gmap ref Condition) (only parsing).


(** [bool(v)]: the truth value Python gives a value in [if v:]. *)
Definition truthy (v : Value) : bool :=
  match v with
  | VNone => false
  | VBool b => b
  | VInt z => negb (z =? 0)%Z
  | VStr s => negb (String.eqb s "")
  | VOrder _ => true
  | VList l => match l with [] => false | _ => true end
  end.

(** [isinstance(v, int)]; [bool] is a subclass of [int]. *)
Definition isinstance_int (v : Value) : bool :=
  match v with
  | VInt _ | VBool _ => true
  | _ => false
  end.

(** [isinstance(v, OrderType)] *)
Definition is_order_type (v : Value) : bool :=
  match v with VOrder _ => true | _ => false end.

(** [v is None] *)
Definition is_none (v : Value) : bool :=
  match v with VNone => true | _ => false end.

(** [k in d] for a dict [d]. *)
Definition contains {A} (d : gmap string A) (k : string) : bool :=
  bool_decide (is_Some (d !! k)).

(** [d[k]] for a dict [d]. *)
Definition getitem {A} (d : gmap string A) (k : string) : res A :=
  match d !! k with
  | Some a => Ok a
  | None => Raise (KeyError k)
  end.

(** [for x in l: f(x)] *)
Fixpoint for_each {A} (f : A -> res unit) (l : list A) : res unit :=
  match l with
  | [] => Ok tt
  | x :: l' => f x ;;; for_each f l'
  end.

(** ** Constructors and factory functions *)

Definition new (b : Body) : Condition := mkCondition None b.

Definition columns_equal (origin_column : string) (dest_model : Model)
    (dest_column : string) : Condition :=
  new (ColumnsEqualCondition origin_column dest_model dest_column).

(** [self._conditions = conditions or []] *)
Definition includes (relation : string) (conditions : option (list ref))
    : Condition :=
  new (IncludesCondition relation (default [] conditions) None).

(** [limit(value, offset)], that is [LimitCondition(value, offset)]: the
    constructor checks [limit] first, then [offset]. *)
Definition limit_offset (value offset : Value) : res Condition :=
  for_each (fun v =>
      if isinstance_int v then Ok tt
      else Raise (SpannerError (NotInt v))) [value; offset] ;;;
  Ok (new (LimitCondition value offset)).

(** [limit(value, offset=0)] *)
Definition limit (value : Value) : res Condition :=
  limit_offset value (VInt 0).

(** [OrderByCondition.__init__]: each ordering is a pair of a column and
    a direction; the directions are checked in order, and the orderings
    kept are those whose direction is an [OrderType]. *)
Fixpoint check_orderings (orderings : list (string * Value))
    : res (list (string * OrderType)) :=
  match orderings with
  | [] => Ok []
  | (column, order_type) :: rest =>
      match order_type with
      | VOrder o =>
          os <- check_orderings rest ;; Ok ((column, o) :: os)
      | _ => Raise (SpannerError (NotOrderType order_type))
      end
  end.

Definition order_by (orderings : list (string * Value)) : res Condition :=
  os <- check_orderings orderings ;; Ok (new (OrderByCondition os)).

Definition comparison (op : Comparison) (column : string) (value : Value)
    : Condition :=
  new (ComparisonCondition op column value).

Definition equal_to := comparison Equality.
Definition not_equal_to := comparison Inequality.
Definition greater_than := comparison GreaterThan.
Definition greater_than_or_equal_to := comparison GreaterThanOrEqual.
Definition less_than := comparison LessThan.
Definition less_than_or_equal_to := comparison LessThanOrEqual.
Definition in_list := comparison InList.
Definition not_in_list := comparison NotInList.
Definition not_greater_than := less_than_or_equal_to.
Definition not_less_than := greater_than_or_equal_to.

(** ** The methods of the condition classes *)

(** [operator()] of each concrete comparison class. *)
Definition operator (op : Comparison) : string :=
  match op with
  | GreaterThan => ">"
  | GreaterThanOrEqual => ">="
  | LessThan => "<"
  | LessThanOrEqual => "<="
  | InList => "IN"
  | NotInList => "NOT IN"
  | Equality => "="
  | Inequality => "!="
  end.

(** The three bases of the comparison family, which differ in [_sql],
    [_params], [_types] and [_validate]. *)
Inductive Family :=
| Plain
| ListComparison
| NullableComparison (nullable_operator : string).

Definition family (op : Comparison) : Family :=
  match op with
  | GreaterThan | GreaterThanOrEqual | LessThan | LessThanOrEqual => Plain
  | InList | NotInList => ListComparison
  | Equality => NullableComparison "IS"
  | Inequality => NullableComparison "IS NOT"
  end.

(** [order_type.name] *)
Definition order_name (o : OrderType) : string :=
  match o with ASC => "ASC" | DESC => "DESC" end.

(** [segment()] needs no model. *)
Definition segment (c : Condition) : Segment :=
  match body c with
  | ColumnsEqualCondition _ _ _ => WHERE
  | IncludesCondition _ _ _ => JOIN
  | LimitCondition _ _ => LIMIT
  | OrderByCondition _ => ORDER_BY
  | ComparisonCondition _ _ _ => WHERE
  end.

Definition LIMIT_KEY : string := "limit".
Definition OFFSET_KEY : string := "offset".

(** [ComparisonCondition._sql] *)
Definition comparison_sql (m : Model) (op : Comparison) (column : string)
    : string :=
  column_prefix m ++ "." ++ column ++ " " ++ operator op ++ " @" ++ column.

(** [_sql], called with [self.model] set to [m]. *)
Definition _sql (m : Model) (b : Body) : string :=
  match b with
  | ColumnsEqualCondition column destination_model destination_column =>
      table m ++ "." ++ column ++ " = " ++
      table destination_model ++ "." ++ destination_column
  | IncludesCondition _ _ _ => ""
  | LimitCondition _ offset =>
      if truthy offset
      then "LIMIT @" ++ LIMIT_KEY ++ " OFFSET @" ++ OFFSET_KEY
      else "LIMIT @" ++ LIMIT_KEY
  | OrderByCondition orderings =>
      "ORDER BY " ++
      String.concat ", "
        (map (fun '(column, order_type) =>
                column_prefix m ++ "." ++ column ++ " " ++
                order_name order_type) orderings)
  | ComparisonCondition op column value =>
      match family op with
      | Plain => comparison_sql m op column
      | ListComparison =>
          column_prefix m ++ "." ++ column ++ " " ++ operator op ++
          " UNNEST(@" ++ column ++ ")"
      | NullableComparison nullable_operator =>
          if is_none value
          then column_prefix m ++ "." ++ column ++ " " ++
               nullable_operator ++ " NULL"
          else comparison_sql m op column
      end
  end.

(** [_params] *)
Definition _params (b : Body) : gmap string Value :=
  match b with
  | ColumnsEqualCondition _ _ _ => ∅
  | IncludesCondition _ _ _ => ∅
  | LimitCondition limit offset =>
      let params := {[ LIMIT_KEY := limit ]} in
      if truthy offset then <[ OFFSET_KEY := offset ]> params else params
  | OrderByCondition _ => ∅
  | ComparisonCondition op column value =>
      match family op with
      | NullableComparison _ =>
          if is_none value then ∅ else {[ column := value ]}
      | _ => {[ column := value ]}
      end
  end.

(** [_types], called with [self.model] set to [m]. *)
Definition _types (m : Model) (b : Body) : res (gmap string WireType) :=
  match b with
  | ColumnsEqualCondition _ _ _ => Ok ∅
  | IncludesCondition _ _ _ => Ok ∅
  | LimitCondition _ offset =>
      let types := {[ LIMIT_KEY := PbType INT64 ]} in
      Ok (if truthy offset then <[ OFFSET_KEY := PbType INT64 ]> types
          else types)
  | OrderByCondition _ => Ok ∅
  | ComparisonCondition op column value =>
      match family op with
      | Plain =>
          f <- getitem (schema m) column ;; Ok {[ column := grpc_type f ]}
      | ListComparison =>
          f <- getitem (schema m) column ;;
          Ok {[ column := grpc_list_type f ]}
      | NullableComparison _ =>
          if is_none value then Ok ∅
          else f <- getitem (schema m) column ;;
               Ok {[ column := grpc_type f ]}
      end
  end.

(** The guard [if not self.model: raise error.SpannerError(...)] of
    [Condition.sql], [Condition.params] and [Condition.types].  A model
    is a class, which is true in a test; the slot is false when it holds
    [None]. *)
Definition must_be_bound (method : string) (c : Condition) : res Model :=
  match model c with
  | None => Raise (SpannerError (MustBeBound method))
  | Some m => Ok m
  end.

Definition sql (c : Condition) : res string :=
  m <- must_be_bound "sql" c ;; Ok (_sql m (body c)).

Definition params (c : Condition) : res (gmap string Value) :=
  _ <- must_be_bound "params" c ;; Ok (_params (body c)).

Definition types (c : Condition) : res (gmap string WireType) :=
  m <- must_be_bound "types" c ;; _types m (body c).

(** [IncludesCondition.conditions]; no other class has the method. *)
Definition conditions (c : Condition) : res (list ref) :=
  match body c with
  | IncludesCondition _ _conditions relation =>
      match relation with
      | None => Raise (SpannerError (MustBeBound "conditions"))
      | Some rel => Ok (rel_conditions rel ++ _conditions)%list
      end
  | _ => Raise (AttributeError "conditions")
  end.

(** [IncludesCondition.destination] *)
Definition destination (c : Condition) : res Model :=
  match body c with
  | IncludesCondition _ _ relation =>
      match relation with
      | None => Raise (SpannerError (MustBeBound "destination"))
      | Some rel => Ok (rel_destination rel)
      end
  | _ => Raise (AttributeError "destination")
  end.

(** The bodies of the [_validate] methods.  Only
    [IncludesCondition._validate] calls [_validate] again, on each of its
    extra conditions: [call] is that call, on the object a reference
    names. *)
Definition validate_body (call : ref -> Model -> res unit) (b : Body)
    (m : Model) : res unit :=
  match b with
  | ColumnsEqualCondition column destination_model destination_column =>
      assert (contains (schema m) column) ;;;
      origin <- getitem (schema m) column ;;
      assert (contains (schema destination_model) destination_column) ;;;
      dest <- getitem (schema destination_model) destination_column ;;
      assert (bool_decide (field_type origin = field_type dest) &&
              bool_decide (nullable origin = nullable dest))
  | IncludesCondition name _conditions _ =>
      assert (contains (relations m) name) ;;;
      rel <- getitem (relations m) name ;;
      let other_model := rel_destination rel in
      for_each (fun condition => call condition other_model) _conditions
  | LimitCondition _ _ => Ok tt
  | OrderByCondition orderings =>
      for_each (fun '(column, _) => assert (contains (schema m) column))
        orderings
  | ComparisonCondition op column value =>
      match family op with
      | Plain =>
          assert (contains (schema m) column) ;;;
          assert (negb (is_none value)) ;;;
          f <- getitem (schema m) column ;; validate f value
      | ListComparison =>
          match value with
          | VList values =>
              assert (contains (schema m) column) ;;;
              for_each (fun v =>
                  f <- getitem (schema m) column ;; validate f v) values
          | _ => Raise AssertionError
          end
      | NullableComparison _ =>
          assert (contains (schema m) column) ;;;
          f <- getitem (schema m) column ;; validate f value
      end
  end.

(** [condition._validate(model)] on the object [r] of the store, with
    [depth] calls left before the interpreter's recursion limit.  It
    reads the store and writes nothing. *)
Fixpoint validate_ref (depth : nat) (h : store) (r : ref) (m : Model)
    : res unit :=
  match depth with
  | 0 => Raise RecursionError
  | S depth' =>
      match h !! r with
      | None => Raise NoSuchObject
      | Some condition =>
          validate_body (validate_ref depth' h) (body condition) m
      end
  end.

(** [self._validate(model)], as [bind] calls it: [depth] nested calls
    may follow. *)
Definition _validate (depth : nat) (h : store) (b : Body) (m : Model)
    : res unit :=
  validate_body (validate_ref depth h) b m.

(** [Condition.bind]: [self._validate(model); self.model = model].  An
    exception of [_validate] leaves the store as it was. *)
Definition Condition_bind (depth : nat) (h : store) (r : ref) (m : Model)
    : store * res unit :=
  match h !! r with
  | None => (h, Raise NoSuchObject)
  | Some self =>
      match _validate depth h (body self) m with
      | Raise e => (h, Raise e)
      | Ok _ => (<[ r := mkCondition (Some m) (body self) ]> h, Ok tt)
      end
  end.

(** [IncludesCondition.bind]: [super().bind(model)], then
    [self.relation = self.model.relations()[self.name]]. *)
Definition IncludesCondition_bind (depth : nat) (h : store) (r : ref)
    (m : Model) : store * res unit :=
  match Condition_bind depth h r m with
  | (h1, Raise e) => (h1, Raise e)
  | (h1, Ok _) =>
      match h1 !! r with
      | Some (mkCondition (Some self_model)
                (IncludesCondition name _conditions _)) =>
          match getitem (relations self_model) name with
          | Raise e => (h1, Raise e)
          | Ok rel =>
              (<[ r := mkCondition (Some self_model)
                         (IncludesCondition name _conditions (Some rel)) ]>
                 h1, Ok tt)
          end
      | _ => (h1, Raise NoSuchObject)
      end
  end.

(** [condition.bind(model)], dispatched on the class of the receiver. *)
Definition bind (depth : nat) (h : store) (r : ref) (m : Model)
    : store * res unit :=
  match h !! r with
  | Some (mkCondition _ (IncludesCondition _ _ _)) =>
      IncludesCondition_bind depth h r m
  | _ => Condition_bind depth h r m
  end.

(** ** Parameter placeholders of a SQL fragment *)

(** The characters of a parameter name: letters, digits, underscore. *)
Definition is_ident_char (c : ascii) : bool :=
  let n := N_of_ascii c in
  ((48 <=? n) && (n <=? 57) || (65 <=? n) && (n <=? 90) ||
   (97 <=? n) && (n <=? 122) || (n =? 95))%N.

Definition is_at (c : ascii) : bool := Ascii.eqb c "@".

Fixpoint all_chars (p : ascii -> bool) (s : string) : bool :=
  match s with
  | EmptyString => true
  | String c s' => p c && all_chars p s'
  end.

(** The longest prefix of [s] made of name characters. *)
Fixpoint ident_prefix (s : string) : string :=
  match s with
  | EmptyString => EmptyString
  | String c s' =>
      if is_ident_char c then String c (ident_prefix s') else EmptyString
  end.

Definition name_set (n : string) : gset string :=
  if String.eqb n "" then ∅ else {[ n ]}.

(** The names [n] that occur in [s] as a placeholder [@n]: each [@] of
    the fragment starts the name that follows it. *)
Fixpoint placeholders (s : string) : gset string :=
  match s with
  | EmptyString => ∅
  | String c s' =>
      (if is_at c then name_set (ident_prefix s') else ∅) ∪ placeholders s'
  end.

(** A column name is a non-empty run of name characters; a table name or
    an alias may be dotted, and holds no [@]. *)
Definition identifier (s : string) : bool :=
  negb (String.eqb s "") && all_chars is_ident_char s.

Definition no_at (s : string) : bool :=
  all_chars (fun c => negb (is_at c)) s.

(** The names that [_sql] writes into the fragment of a condition bound
    to [m] are names of columns, tables and aliases. *)
Definition sql_names_ok (m : Model) (b : Body) : bool :=
  no_at (table m) && no_at (column_prefix m) &&
  match b with
  | ColumnsEqualCondition column destination_model destination_column =>
      identifier column && no_at (table destination_model) &&
      identifier destination_column
  | IncludesCondition _ _ _ => true
  | LimitCondition _ _ => true
  | OrderByCondition orderings =>
      forallb (fun '(column, _) => identifier column) orderings
  | ComparisonCondition _ column _ => identifier column
  end.

(** The attributes of the receiver after a successful [bind(m)]: only
    [IncludesCondition.bind] writes one, [relation]. *)
Definition bound_body (m : Model) (b : Body) : Body :=
  match b with
  | IncludesCondition name _conditions relation =>
      IncludesCondition name _conditions
        (match relations m !! name with
         | Some rel => Some rel
         | None => relation
         end)
  | _ => b
  end.

(** The columns that the [_validate] of a condition looks up in the
    schema of the model it is given. *)
Definition names_column (b : Body) (col : string) : Prop :=
  match b with
  | ColumnsEqualCondition column _ _ => column = col
  | OrderByCondition orderings => col ∈ orderings.*1
  | ComparisonCondition _ column _ => column = col
  | _ => False
  end.

(** [s.endswith(suffix)] *)
Definition ends_in (s suffix : string) : Prop :=
  exists pre, s = pre ++ suffix.

(** ** Sample models *)

(** Modelled from the spec: [field.Field(type, nullable)] of
    [spanner_orm.field], which is outside this file's sources.  Its
    validator fails if the value's type is incompatible: a wrong logical
    type, or an absent value for a field that is not nullable. *)
Definition sample_field (type_name : string) (type_ok : Value -> bool)
    (code : TypeCode) (is_nullable : bool) : Field :=
  mkField type_name is_nullable (PbType code) (PbArray code)
    (fun v => match v with
              | VNone => assert is_nullable
              | _ => assert (type_ok v)
              end).

Definition StringField : bool -> Field :=
  sample_field "String"
    (fun v => match v with VStr _ => true | _ => false end) STRING.

Definition IntegerField : bool -> Field :=
  sample_field "Integer"
    (fun v => match v with VInt _ => true | _ => false end) INT64.

(** [schemas/index_column.py]: [IndexColumnSchema]. *)
Definition IndexColumnSchema : Model :=
  mkModel "information_schema.index_columns" "index_columns"
    (list_to_map
       [("table_catalog", StringField false);
        ("table_schema", StringField false);
        ("table_name", StringField false);
        ("index_name", StringField false);
        ("column_name", StringField false);
        ("ordinal_position", IntegerField true);
        ("column_ordering", StringField true);
        ("is_nullable", StringField false);
        ("spanner_type", StringField false)])
    ∅.

(** A table of indexes whose relation [columns] leads to the index
    columns; the join condition of the relation is object [100]. *)
Definition IndexSchema : Model :=
  mkModel "information_schema.indexes" "indexes"
    (list_to_map
       [("table_name", StringField false);
        ("index_name", StringField false);
        ("index_type", StringField false);
        ("parent_table_name", StringField true)])
    {[ "columns" := mkRelation [100] IndexColumnSchema ]}.

Definition sample_store : store :=
  list_to_map
    [(100, columns_equal "index_name" IndexColumnSchema "index_name");
     (1, equal_to "column_ordering" VNone);
     (2, not_equal_to "ordinal_position" (VInt 3));
     (3, includes "columns" (Some [1; 2]));
     (4, equal_to "table_name" VNone);
     (5, equal_to "parent_table_name" VNone);
     (6, includes "columns" (Some [5]));
     (7, includes "rows" None);
     (8, new (LimitCondition (VInt 10) (VInt 5)))].

(** ** The rest of the module *)

(** [IncludesCondition.relation_name] *)
Definition relation_name (c : Condition) : res string :=
  match body c with
  | IncludesCondition name _ _ => Ok name
  | _ => Raise (AttributeError "relation_name")
  end.

(** Python's [a == b] on the values above: [bool] compares as the
    integer it is, lists compare element by element, enum members by
    identity, and values of unrelated types are unequal. *)
Fixpoint py_eq (a b : Value) : bool :=
  match a, b with
  | VNone, VNone => true
  | VBool x, VBool y => Bool.eqb x y
  | VBool x, VInt y => (y =? (if x then 1 else 0))%Z
  | VInt x, VBool y => (x =? (if y then 1 else 0))%Z
  | VInt x, VInt y => (x =? y)%Z
  | VStr x, VStr y => String.eqb x y
  | VOrder ASC, VOrder ASC => true
  | VOrder DESC, VOrder DESC => true
  | VList x, VList y =>
      (fix all2 (x y : list Value) : bool :=
         match x, y with
         | [], [] => true
         | a' :: x', b' :: y' => py_eq a' b' && all2 x' y'
         | _, _ => false
         end) x y
  | _, _ => false
  end.

(** [EqualityCondition.__eq__(self, obj)], for [self] an
    [EqualityCondition]:
    [isinstance(obj, EqualityCondition) and self.value == obj.value]. *)
Definition EqualityCondition_eq (self obj : Condition) : bool :=
  match body self, body obj with
  | ComparisonCondition _ _ self_value,
    ComparisonCondition Equality _ obj_value => py_eq self_value obj_value
  | _, _ => false
  end.

(** [IndexColumnSchema.primary_index_keys] of [schemas/index_column.py]. *)
Definition primary_index_keys : list string :=
  ["table_catalog"; "table_schema"; "table_name"; "index_name";
   "column_name"].

(** What [_validate] reads of a body: every attribute but the [relation]
    slot of an [IncludesCondition]. *)
Definition validated_part (b : Body) : Body :=
  match b with
  | IncludesCondition name _conditions _ =>
      IncludesCondition name _conditions None
  | _ => b
  end.

(** One ordering of [OrderByCondition._sql]. *)
Definition ordering_sql (m : Model) (ordering : string * OrderType)
    : string :=
  column_prefix m ++ "." ++ ordering.1 ++ " " ++ order_name ordering.2.

(** A second store of sample conditions. *)
Definition sample_store2 : store :=
  list_to_map
    [(1, greater_than "ordinal_position" (VInt 3));
     (2, in_list "table_name" (VList [VStr "a"; VStr "b"]));
     (3, in_list "table_name" (VList [VStr "a"; VInt 1; VStr "b"]));
     (4, new (OrderByCondition [("table_name", ASC); ("index_name", DESC)]));
     (5, columns_equal "index_name" IndexColumnSchema "index_name");
     (6, columns_equal "index_name" IndexSchema "index_name");
     (7, includes "columns" (Some [8]));
     (8, includes "nested" None);
     (9, new (LimitCondition (VBool true) (VBool false)));
     (10, equal_to "index_name" (VStr "x"));
     (11, less_than "index_name" (VStr "x"));
     (12, new (OrderByCondition []));
     (13, new (OrderByCondition
                 (zip primary_index_keys [ASC; DESC; ASC; DESC; ASC])));
     (14, mkCondition (Some IndexColumnSchema)
            (ComparisonCondition Equality "column_ordering" VNone))].

(** * Properties *)

(** ** The result monad and the loops *)

Lemma assert_Ok b : assert b = Ok tt <-> b = true.
Proof. destruct b; simpl; split; congruence. Qed.

Lemma for_each_Ok {A} (f : A -> res unit) (l : list A) :
  for_each f l = Ok tt <-> Forall (fun x => f x = Ok tt) l.
Proof.
  induction l as [|x l IH]; simpl.
  - split; auto.
  - rewrite Forall_cons, <- IH. unfold res_bind.
    destruct (f x) as [[]|e]; intuition congruence.
Qed.

Lemma contains_getitem {A} (d : gmap string A) (k : string) :
  contains d k = true -> exists a, d !! k = Some a /\ getitem d k = Ok a.
Proof.
  unfold contains, getitem. intros H%bool_decide_eq_true.
  destruct H as [a Ha]. exists a. by rewrite Ha.
Qed.

Lemma contains_false {A} (d : gmap string A) (k : string) :
  contains d k = false <-> d !! k = None.
Proof.
  unfold contains. rewrite bool_decide_eq_false, <- eq_None_not_Some.
  tauto.
Qed.

Lemma contains_Some {A} (d : gmap string A) (k : string) a :
  d !! k = Some a -> contains d k = true.
Proof. intros H. unfold contains. apply bool_decide_eq_true_2. eauto. Qed.

Lemma contains_None {A} (d : gmap string A) (k : string) :
  d !! k = None -> contains d k = false.
Proof. apply contains_false. Qed.

Lemma getitem_Some {A} (d : gmap string A) (k : string) a :
  d !! k = Some a -> getitem d k = Ok a.
Proof. unfold getitem. by intros ->. Qed.

Lemma contains_true {A} (d : gmap string A) (k : string) :
  contains d k = true <-> is_Some (d !! k).
Proof. unfold contains. by rewrite bool_decide_eq_true. Qed.

(** ** Strings *)

Lemma append_cons c (s1 s2 : string) :
  String c s1 ++ s2 = String c (s1 ++ s2).
Proof. reflexivity. Qed.

Lemma append_assoc (s1 s2 s3 : string) :
  (s1 ++ s2) ++ s3 = s1 ++ (s2 ++ s3).
Proof.
  induction s1 as [|c s1 IH]; [done|]. by rewrite !append_cons, IH.
Qed.

(** ** What [bind] does to the store *)

Lemma validate_includes_relation depth h name cs rel0 m :
  _validate depth h (IncludesCondition name cs rel0) m = Ok tt ->
  exists rel, relations m !! name = Some rel.
Proof.
  unfold _validate. simpl.
  destruct (contains (relations m) name) eqn:E; simpl; [|done].
  apply contains_getitem in E as (rel & Hrel & _). eauto.
Qed.

Lemma Condition_bind_eq depth h r m self :
  h !! r = Some self ->
  Condition_bind depth h r m =
    match _validate depth h (body self) m with
    | Raise e => (h, Raise e)
    | Ok _ => (<[ r := mkCondition (Some m) (body self) ]> h, Ok tt)
    end.
Proof. intros Hr. unfold Condition_bind. by rewrite Hr. Qed.

Lemma bind_Ok depth h r m h' :
  bind depth h r m = (h', Ok tt) ->
  exists self,
    h !! r = Some self /\
    _validate depth h (body self) m = Ok tt /\
    h' = <[ r := mkCondition (Some m) (bound_body m (body self)) ]> h.
Proof.
  unfold bind. destruct (h !! r) as [[mo b]|] eqn:Hr.
  - pose proof (Condition_bind_eq depth h r m _ Hr) as Hbase.
    simpl body in Hbase.
    destruct b; try (rewrite Hbase;
      destruct (_validate _ _ _ _) as [[]|e] eqn:Hv; intros [= <-];
      eexists; split; [done|]; split; done).
    unfold IncludesCondition_bind. rewrite Hbase.
    destruct (_validate _ _ _ _) as [[]|e] eqn:Hv; [|intros [=]].
    rewrite lookup_insert_eq.
    destruct (validate_includes_relation _ _ _ _ _ _ Hv) as [rel Hrel].
    unfold getitem. rewrite Hrel. intros [= <-].
    eexists; split; [done|]; split; [done|].
    simpl. rewrite Hrel. by rewrite insert_insert_eq.
  - unfold Condition_bind. rewrite Hr. intros [=].
Qed.

Lemma bind_Raise depth h r m h' e :
  bind depth h r m = (h', Raise e) -> h' = h.
Proof.
  unfold bind, IncludesCondition_bind, Condition_bind.
  destruct (h !! r) as [[mo b]|] eqn:Hr; [|by intros [=]].
  destruct b; rewrite ?Hr; cbn [body];
    destruct (_validate _ _ _ _) as [[]|e'] eqn:Hv;
    try (by intros [=]).
  rewrite lookup_insert_eq.
  destruct (getitem (relations m) name) eqn:Hg; [by intros [=]|].
  apply validate_includes_relation in Hv as [rel Hrel].
  unfold getitem in Hg. by rewrite Hrel in Hg.
Qed.

Lemma bind_validate depth h r m self :
  h !! r = Some self ->
  _validate depth h (body self) m = Ok tt ->
  bind depth h r m =
    (<[ r := mkCondition (Some m) (bound_body m (body self)) ]> h, Ok tt).
Proof.
  intros Hr Hv. destruct (bind depth h r m) as [h' [[]|e]] eqn:Hb.
  - apply bind_Ok in Hb as (self' & Hr' & _ & ->). congruence.
  - exfalso. revert Hb. unfold bind, IncludesCondition_bind, Condition_bind.
    rewrite Hr. destruct self as [mo b]. simpl in Hv.
    destruct b; rewrite ?Hr; cbn [body]; rewrite Hv; try (by intros [=]).
    rewrite lookup_insert_eq.
    apply validate_includes_relation in Hv as [rel Hrel].
    unfold getitem. rewrite Hrel. by intros [=].
Qed.

Lemma bind_fails depth h r m self e :
  h !! r = Some self ->
  _validate depth h (body self) m = Raise e ->
  bind depth h r m = (h, Raise e).
Proof.
  intros Hr Hv. unfold bind, IncludesCondition_bind, Condition_bind.
  rewrite Hr. destruct self as [mo b]. simpl in Hv.
  destruct b; rewrite ?Hr; cbn [body]; by rewrite Hv.
Qed.

(** ** Unbound and bound conditions *)

Lemma unbound_raises c :
  model c = None ->
  sql c = Raise (SpannerError (MustBeBound "sql")) /\
  params c = Raise (SpannerError (MustBeBound "params")) /\
  types c = Raise (SpannerError (MustBeBound "types")).
Proof. unfold sql, params, types, must_be_bound. by intros ->. Qed.

(** A comparison that passed validation names a column of the schema. *)
Lemma validate_comparison_column call op column value m :
  validate_body call (ComparisonCondition op column value) m = Ok tt ->
  exists f, schema m !! column = Some f.
Proof.
  simpl. destruct (family op); [| destruct value; try done |];
    (destruct (contains (schema m) column) eqn:E; simpl; [|done]);
    apply contains_getitem in E as (f & Hf & _); eauto.
Qed.

Lemma validated_types call b m :
  validate_body call b m = Ok tt ->
  exists t, _types m (bound_body m b) = Ok t.
Proof.
  destruct b as [| | | |op column value]; simpl bound_body;
    try (simpl; eauto; fail).
  intros (f & Hf)%validate_comparison_column.
  unfold _types, getitem. rewrite Hf. simpl.
  destruct (family op); [eauto | eauto |]. destruct (is_none value); eauto.
Qed.

Lemma bound_methods m b t :
  _types m b = Ok t ->
  let c := mkCondition (Some m) b in
  sql c = Ok (_sql m b) /\ params c = Ok (_params b) /\ types c = Ok t.
Proof. intros Ht. by repeat split. Qed.

Lemma bind_Ok_methods depth (h : store) r m h' :
  bind depth h r m = (h', Ok tt) ->
  exists c s p t,
    h' !! r = Some c /\ model c = Some m /\
    sql c = Ok s /\ params c = Ok p /\ types c = Ok t.
Proof.
  intros (self & Hr & Hv & ->)%bind_Ok.
  destruct (validated_types _ _ _ Hv) as [t Ht].
  eexists _, _, _, t. rewrite lookup_insert_eq. split; [done|].
  split; [done|]. by apply bound_methods.
Qed.

(** C2.  A condition whose [model] slot is empty, as every constructor
    leaves it, raises the unbound-use error from [sql], [params] and
    [types]; a [bind] that raises leaves every object as it was, so the
    condition is still unbound; and after a [bind] that returns, the
    three methods of the condition return a result. *)
Theorem C2_unbound_use_error :
  (forall b,
     sql (new b) = Raise (SpannerError (MustBeBound "sql")) /\
     params (new b) = Raise (SpannerError (MustBeBound "params")) /\
     types (new b) = Raise (SpannerError (MustBeBound "types"))) /\
  (forall depth (h : store) r m h' e c,
     h !! r = Some c -> model c = None ->
     bind depth h r m = (h', Raise e) ->
     h' !! r = Some c /\
     sql c = Raise (SpannerError (MustBeBound "sql")) /\
     params c = Raise (SpannerError (MustBeBound "params")) /\
     types c = Raise (SpannerError (MustBeBound "types"))) /\
  (forall depth (h : store) r m h',
     bind depth h r m = (h', Ok tt) ->
     exists c s p t,
       h' !! r = Some c /\ model c = Some m /\
       sql c = Ok s /\ params c = Ok p /\ types c = Ok t).
Proof.
  split; [|split].
  - intros b. by apply unbound_raises.
  - intros depth h r m h' e c Hr Hm Hb.
    apply bind_Raise in Hb as ->. split; [done|]. by apply unbound_raises.
  - apply bind_Ok_methods.
Qed.

(** ** Segments *)

(** C9.  [segment()] of a cross-table equality condition is [WHERE], not
    [JOIN], whatever the [model] slot holds. *)
Theorem C9_columns_equal_segment origin_column dest_model dest_column mo :
  segment (columns_equal origin_column dest_model dest_column) = WHERE /\
  segment (mkCondition mo
             (ColumnsEqualCondition origin_column dest_model dest_column))
    = WHERE /\
  WHERE <> JOIN.
Proof. repeat split. discriminate. Qed.

(** ** Construction *)

Lemma check_orderings_typed os :
  check_orderings (map (fun '(c, o) => (c, VOrder o)) os) = Ok os.
Proof.
  induction os as [|[c o] os IH]; simpl; [done|]. by rewrite IH.
Qed.

Lemma check_orderings_untyped orderings :
  Exists (fun '(_, d) => is_order_type d = false) orderings ->
  exists v, is_order_type v = false /\
    check_orderings orderings = Raise (SpannerError (NotOrderType v)).
Proof.
  induction 1 as [[c d] l Hd|[c d] l _ IH]; simpl.
  - exists d. by destruct d.
  - destruct IH as (v & Hv & E).
    destruct d; try (by eexists; split; [|reflexivity]).
    rewrite E. simpl. eauto.
Qed.

(** C8.  [limit(value, offset)] raises at construction when [value] or
    [offset] is not an [int], and [order_by] raises at
    construction when a direction is not an [OrderType]; with arguments
    of these types both return the new, unbound condition.  Neither
    takes a model or a store. *)
Theorem C8_construction_time_errors :
  (forall value offset,
     isinstance_int value = false \/ isinstance_int offset = false ->
     exists v, isinstance_int v = false /\
       limit_offset value offset = Raise (SpannerError (NotInt v))) /\
  (forall value offset,
     isinstance_int value = true -> isinstance_int offset = true ->
     limit_offset value offset = Ok (new (LimitCondition value offset))) /\
  (forall value,
     isinstance_int value = true ->
     limit value = Ok (new (LimitCondition value (VInt 0)))) /\
  (forall orderings,
     Exists (fun '(_, d) => is_order_type d = false) orderings ->
     exists v, is_order_type v = false /\
       order_by orderings = Raise (SpannerError (NotOrderType v))) /\
  (forall os,
     order_by (map (fun '(c, o) => (c, VOrder o)) os) =
       Ok (new (OrderByCondition os))).
Proof.
  repeat split.
  - intros value offset H. unfold limit_offset. simpl.
    destruct (isinstance_int value) eqn:Ev; simpl.
    + destruct H as [|H]; [done|]. rewrite H. simpl. eauto.
    + eauto.
  - intros value offset Hv Ho. unfold limit_offset. simpl.
    by rewrite Hv, Ho.
  - intros value Hv. unfold limit, limit_offset. simpl. by rewrite Hv.
  - intros orderings (v & Hv & E)%check_orderings_untyped.
    unfold order_by. rewrite E. simpl. eauto.
  - intros os. unfold order_by. by rewrite check_orderings_typed.
Qed.

(** ** Limit *)

(** C7.  A limit condition with integer limit and offset binds to any
    model.  With offset zero, also when the zero was passed explicitly,
    [sql()] is [LIMIT @limit] and [params()] and [types()] have the one
    key [limit]; with another offset [sql()] is
    [LIMIT @limit OFFSET @offset] and both have the keys [limit] and
    [offset], [params()] with the given values. *)
Theorem C7_limit_offset (l o : Z) depth (h : store) r m :
  limit_offset (VInt l) (VInt o) =
    Ok (new (LimitCondition (VInt l) (VInt o))) /\
  limit (VInt l) = limit_offset (VInt l) (VInt 0) /\
  (h !! r = Some (new (LimitCondition (VInt l) (VInt o))) ->
   exists c,
     bind depth h r m = (<[ r := c ]> h, Ok tt) /\
     (o = 0%Z ->
        sql c = Ok "LIMIT @limit" /\
        params c = Ok {[ "limit" := VInt l ]} /\
        types c = Ok {[ "limit" := PbType INT64 ]}) /\
     (o <> 0%Z ->
        sql c = Ok "LIMIT @limit OFFSET @offset" /\
        params c = Ok (<[ "offset" := VInt o ]> {[ "limit" := VInt l ]}) /\
        types c = Ok (<[ "offset" := PbType INT64 ]>
                        {[ "limit" := PbType INT64 ]}) /\
        (forall p, params c = Ok p -> dom p = {[ "limit"; "offset" ]}) /\
        (forall t, types c = Ok t -> dom t = {[ "limit"; "offset" ]}))).
Proof.
  split; [done|]. split; [done|]. intros Hr.
  eexists. split; [by apply (bind_validate _ _ _ _ _ Hr)|].
  unfold sql, params, types. simpl. split.
  - intros ->. done.
  - intros Ho. apply Z.eqb_neq in Ho. rewrite Ho. simpl.
    repeat split; try done.
    + intros p [= <-]. rewrite dom_insert_L, dom_singleton_L. set_solver.
    + intros t [= <-]. rewrite dom_insert_L, dom_singleton_L. set_solver.
Qed.

(** ** Null-aware comparisons *)

Lemma nullable_bind depth (h : store) r m h' mo op nop column value :
  family op = NullableComparison nop ->
  h !! r = Some (mkCondition mo (ComparisonCondition op column value)) ->
  bind depth h r m = (h', Ok tt) ->
  exists c f,
    h' !! r = Some c /\ schema m !! column = Some f /\
    validate f value = Ok tt /\
    (value = VNone ->
       sql c = Ok (column_prefix m ++ "." ++ column ++ " " ++ nop ++ " NULL")
       /\ params c = Ok ∅ /\ types c = Ok ∅) /\
    (value <> VNone ->
       sql c = Ok (column_prefix m ++ "." ++ column ++ " " ++ operator op ++
                   " @" ++ column) /\
       params c = Ok {[ column := value ]} /\
       types c = Ok {[ column := grpc_type f ]}).
Proof.
  intros Hop Hr (self & Hr' & Hv & ->)%bind_Ok.
  rewrite Hr in Hr'. injection Hr' as <-.
  unfold _validate in Hv. cbn [body] in Hv.
  destruct (validate_comparison_column _ _ _ _ _ Hv) as [f Hf].
  simpl in Hv. rewrite Hop in Hv.
  unfold contains, getitem in Hv. rewrite Hf in Hv.
  rewrite bool_decide_eq_true_2 in Hv by eauto. simpl in Hv.
  eexists _, f. rewrite lookup_insert_eq. split; [done|].
  split; [done|]. split; [done|].
  unfold sql, params, types. simpl. rewrite Hop.
  unfold getitem. rewrite Hf. split.
  - by intros ->.
  - intros Hn. by destruct value.
Qed.

(** C4.  A bound [equal_to(column, None)] has a [sql()] that ends in
    [IS NULL], a bound [not_equal_to(column, None)] one that ends in
    [IS NOT NULL], both with empty [params()] and [types()]; with a value
    other than [None] both have the default form
    [<alias>.<column> <operator> @<column>] and one entry, under the
    column's name, in [params()] and in [types()]. *)
Theorem C4_null_aware_sql depth (h : store) r m h' column value :
  (h !! r = Some (equal_to column value) \/
   h !! r = Some (not_equal_to column value)) ->
  bind depth h r m = (h', Ok tt) ->
  exists c f,
    h' !! r = Some c /\ schema m !! column = Some f /\
    (value = VNone ->
       (h !! r = Some (equal_to column value) ->
          sql c = Ok (column_prefix m ++ "." ++ column ++ " IS NULL") /\
          exists s, sql c = Ok s /\ ends_in s "IS NULL") /\
       (h !! r = Some (not_equal_to column value) ->
          sql c = Ok (column_prefix m ++ "." ++ column ++ " IS NOT NULL") /\
          exists s, sql c = Ok s /\ ends_in s "IS NOT NULL") /\
       params c = Ok ∅ /\ types c = Ok ∅) /\
    (value <> VNone ->
       (h !! r = Some (equal_to column value) ->
          sql c = Ok (column_prefix m ++ "." ++ column ++ " = @" ++ column))
       /\
       (h !! r = Some (not_equal_to column value) ->
          sql c = Ok (column_prefix m ++ "." ++ column ++ " != @" ++ column))
       /\
       params c = Ok {[ column := value ]} /\
       types c = Ok {[ column := grpc_type f ]}).
Proof.
  intros Hr Hb.
  assert (Hsuffix : forall a b, ends_in (a ++ "." ++ b ++ " IS NULL") "IS NULL"
            /\ ends_in (a ++ "." ++ b ++ " IS NOT NULL") "IS NOT NULL").
  { intros a b. split; exists (a ++ "." ++ b ++ " ");
      by rewrite !append_assoc. }
  destruct Hr as [Hr|Hr].
  - destruct (nullable_bind _ _ _ _ _ _ Equality _ _ _ eq_refl Hr Hb)
      as (c & f & Hc & Hf & _ & Hnone & Hsome).
    exists c, f. split; [done|]. split; [done|]. split.
    + intros Hv. destruct (Hnone Hv) as (Hs & Hp & Ht).
      split; [|split; [|done]].
      * intros _. split; [done|]. eexists. split; [done|]. apply Hsuffix.
      * rewrite Hr. intros [=].
    + intros Hv. destruct (Hsome Hv) as (Hs & Hp & Ht).
      split; [done|]. split; [|done]. rewrite Hr. intros [=].
  - destruct (nullable_bind _ _ _ _ _ _ Inequality _ _ _ eq_refl Hr Hb)
      as (c & f & Hc & Hf & _ & Hnone & Hsome).
    exists c, f. split; [done|]. split; [done|]. split.
    + intros Hv. destruct (Hnone Hv) as (Hs & Hp & Ht).
      split; [|split; [|done]].
      * rewrite Hr. intros [=].
      * intros _. split; [done|]. eexists. split; [done|]. apply Hsuffix.
    + intros Hv. destruct (Hsome Hv) as (Hs & Hp & Ht).
      split; [|split; [done|done]]. rewrite Hr. intros [=].
Qed.

(** C3, as the code has it.  [NullableComparisonCondition._validate]
    has no assertion on the value: binding [equal_to(column, None)] or
    [not_equal_to(column, None)] succeeds exactly when the column is in
    the schema and the validator of its field accepts [None], and fails,
    leaving the condition unbound, when the validator raises on it. *)
Theorem C3_none_left_to_field_validator depth (h : store) r m column :
  (h !! r = Some (equal_to column VNone) \/
   h !! r = Some (not_equal_to column VNone)) ->
  (snd (bind depth h r m) = Ok tt <->
   exists f, schema m !! column = Some f /\ validate f VNone = Ok tt) /\
  (forall f e,
     schema m !! column = Some f -> validate f VNone = Raise e ->
     bind depth h r m = (h, Raise e)).
Proof.
  intros Hr.
  assert (exists op nop c0,
    h !! r = Some c0 /\ body c0 = ComparisonCondition op column VNone /\
    family op = NullableComparison nop) as (op & nop & c0 & Hc0 & Hb & Hop).
  { destruct Hr as [Hr|Hr]; eexists _, _, _; (split; [exact Hr|]);
      split; reflexivity. }
  assert (Hval : forall f, schema m !! column = Some f ->
            _validate depth h (body c0) m = validate f VNone).
  { intros f Hf. rewrite Hb. unfold _validate. simpl. rewrite Hop.
    unfold contains, getitem. rewrite Hf.
    by rewrite bool_decide_eq_true_2 by eauto. }
  split; [split|].
  - destruct (bind depth h r m) as [h' [[]|e]] eqn:Hbind; [|done].
    intros _. destruct c0 as [mo b0]. simpl in Hb. subst b0.
    destruct (nullable_bind _ _ _ _ _ _ _ _ _ _ Hop Hc0 Hbind)
      as (c & f & _ & Hf & Hv & _). eauto.
  - intros (f & Hf & Hv). rewrite <- (Hval f Hf) in Hv.
    by rewrite (bind_validate _ _ _ _ _ Hc0 Hv).
  - intros f e Hf Hv. rewrite <- (Hval f Hf) in Hv.
    by apply (bind_fails _ _ _ _ _ _ Hc0 Hv).
Qed.

(** ** Cross-table equality *)

(** C5.  [columns_equal(origin_column, dest_model, dest_column)] fails
    to bind when either column is missing from its schema or the two
    fields differ in field type or in nullability; when both columns
    exist with the same field type and nullability it binds, and the
    bound condition has the SQL
    [<table>.<column> = <other_table>.<other_column>] and empty
    [params()] and [types()]. *)
Theorem C5_columns_equal depth (h : store) r m origin_column dest_model
    dest_column :
  h !! r = Some (columns_equal origin_column dest_model dest_column) ->
  (schema m !! origin_column = None \/
   schema dest_model !! dest_column = None \/
   (exists origin dest,
      schema m !! origin_column = Some origin /\
      schema dest_model !! dest_column = Some dest /\
      (field_type origin <> field_type dest \/
       nullable origin <> nullable dest)) ->
   bind depth h r m = (h, Raise AssertionError)) /\
  (forall origin dest,
     schema m !! origin_column = Some origin ->
     schema dest_model !! dest_column = Some dest ->
     field_type origin = field_type dest ->
     nullable origin = nullable dest ->
     exists c,
       bind depth h r m = (<[ r := c ]> h, Ok tt) /\
       sql c = Ok (table m ++ "." ++ origin_column ++ " = " ++
                   table dest_model ++ "." ++ dest_column) /\
       params c = Ok ∅ /\ types c = Ok ∅).
Proof.
  intros Hr. split.
  - intros Hbad. apply (bind_fails _ _ _ _ _ _ Hr).
    unfold _validate. simpl.
    destruct Hbad as [Ho|[Hd|(origin & dest & Ho & Hd & Hne)]].
    + by rewrite (contains_None _ _ Ho).
    + rewrite (contains_None _ _ Hd).
      destruct (schema m !! origin_column) as [origin|] eqn:Ho.
      * by rewrite (contains_Some _ _ _ Ho), (getitem_Some _ _ _ Ho).
      * by rewrite (contains_None _ _ Ho).
    + rewrite (contains_Some _ _ _ Ho), (getitem_Some _ _ _ Ho),
        (contains_Some _ _ _ Hd), (getitem_Some _ _ _ Hd). simpl.
      destruct Hne as [Hne|Hne]; rewrite (bool_decide_eq_false_2 _ Hne);
        [done|]. by rewrite andb_false_r.
  - intros origin dest Ho Hd Ht Hn. eexists. split.
    + apply (bind_validate _ _ _ _ _ Hr).
      unfold _validate. simpl.
      rewrite (contains_Some _ _ _ Ho), (getitem_Some _ _ _ Ho),
        (contains_Some _ _ _ Hd), (getitem_Some _ _ _ Hd). simpl.
      by rewrite !bool_decide_eq_true_2 by done.
    + done.
Qed.

(** ** Placeholders of the generated SQL *)

Lemma append_nil_r (s : string) : s ++ "" = s.
Proof. induction s as [|c s IH]; [done|]. by rewrite append_cons, IH. Qed.

Lemma all_chars_app p (s t : string) :
  all_chars p (s ++ t) = all_chars p s && all_chars p t.
Proof.
  induction s as [|c s IH]; [done|].
  rewrite append_cons. simpl. by rewrite IH, andb_assoc.
Qed.

Lemma ident_char_not_at c : is_ident_char c = true -> is_at c = false.
Proof. by destruct c as [[] [] [] [] [] [] [] []]. Qed.

Lemma ident_no_at s : all_chars is_ident_char s = true -> no_at s = true.
Proof.
  unfold no_at. induction s as [|c s IH]; simpl; [done|].
  intros [Hc Hs]%andb_true_iff.
  by rewrite (ident_char_not_at _ Hc), IH.
Qed.

Lemma identifier_no_at s : identifier s = true -> no_at s = true.
Proof. intros [_ H]%andb_true_iff. by apply ident_no_at. Qed.

Lemma placeholders_no_at s : no_at s = true -> placeholders s = ∅.
Proof.
  unfold no_at. induction s as [|c s IH]; simpl; [done|].
  intros [Hc Hs]%andb_true_iff. apply negb_true_iff in Hc.
  rewrite Hc, IH by done. by rewrite (left_id_L ∅ (∪)).
Qed.

Lemma placeholders_skip s t :
  no_at s = true -> placeholders (s ++ t) = placeholders t.
Proof.
  unfold no_at. induction s as [|c s IH]; [done|].
  rewrite append_cons. simpl.
  intros [Hc Hs]%andb_true_iff. apply negb_true_iff in Hc.
  rewrite Hc, IH by done. by rewrite (left_id_L ∅ (∪)).
Qed.

Lemma ident_prefix_app n t :
  all_chars is_ident_char n = true ->
  ident_prefix (n ++ t) = n ++ ident_prefix t.
Proof.
  induction n as [|c n IH]; [done|]. rewrite !append_cons. simpl.
  intros [Hc Hn]%andb_true_iff. by rewrite Hc, IH.
Qed.

(** A placeholder [@n] followed by a character that no name holds, or by
    the end of the fragment. *)
Lemma placeholders_at_name n t :
  identifier n = true -> ident_prefix t = "" ->
  placeholders ("@" ++ n ++ t) = {[ n ]} ∪ placeholders t.
Proof.
  intros Hn Ht. pose proof Hn as [Hne Hid]%andb_true_iff.
  rewrite append_cons. simpl.
  change ("" ++ n ++ t) with (n ++ t).
  rewrite ident_prefix_app, Ht, append_nil_r by done.
  rewrite placeholders_skip by (by apply ident_no_at).
  unfold name_set. apply negb_true_iff in Hne. by rewrite Hne.
Qed.

Lemma placeholders_at_end n :
  identifier n = true -> placeholders ("@" ++ n) = {[ n ]}.
Proof.
  intros Hn. rewrite <- (append_nil_r n) at 1.
  rewrite placeholders_at_name by done. simpl.
  by rewrite (right_id_L ∅ (∪)).
Qed.

Lemma no_at_operator op : no_at (operator op) = true.
Proof. by destruct op. Qed.

Lemma no_at_concat sep l :
  no_at sep = true -> forallb no_at l = true ->
  no_at (String.concat sep l) = true.
Proof.
  intros Hsep. induction l as [|x l IH]; [done|]. simpl.
  intros [Hx Hl]%andb_true_iff. destruct l as [|y l]; [done|].
  unfold no_at in *. rewrite !all_chars_app, Hx, Hsep. simpl.
  by apply IH.
Qed.

(** The fragment of a comparison in its default form. *)
Lemma placeholders_comparison_sql m op column :
  no_at (column_prefix m) = true -> identifier column = true ->
  placeholders (comparison_sql m op column) = {[ column ]}.
Proof.
  intros Hp Hc. unfold comparison_sql.
  rewrite placeholders_skip by done.
  rewrite (placeholders_skip ".") by done.
  rewrite placeholders_skip by (by apply identifier_no_at).
  rewrite (placeholders_skip " ") by done.
  rewrite placeholders_skip by apply no_at_operator.
  change (" @" ++ column) with (" " ++ "@" ++ column).
  rewrite (placeholders_skip " ") by done.
  by apply placeholders_at_end.
Qed.

(** For a body that passed validation against [m]: the names after [@]
    in [_sql] are the keys of [_params] and the keys of [_types]. *)
Lemma placeholders_params_types call m b :
  validate_body call b m = Ok tt ->
  sql_names_ok m b = true ->
  exists t,
    _types m b = Ok t /\
    placeholders (_sql m b) = dom (_params b) /\
    placeholders (_sql m b) = dom t.
Proof.
  intros Hv Hok. unfold sql_names_ok in Hok.
  apply andb_true_iff in Hok as [[Htab Hpre]%andb_true_iff Hb].
  destruct b as [column dm dcolumn| | l o |orderings|op column value].
  - apply andb_true_iff in Hb as [[Hc Hdt]%andb_true_iff Hdc].
    exists ∅. split; [done|]. simpl. rewrite !dom_empty_L.
    rewrite placeholders_no_at; [done|]. unfold no_at in *.
    rewrite !all_chars_app, Htab, Hdt. simpl.
    apply identifier_no_at in Hc, Hdc. unfold no_at in Hc, Hdc.
    by rewrite Hc, Hdc.
  - exists ∅. simpl. by rewrite !dom_empty_L.
  - simpl. eexists. split; [done|].
    destruct (truthy o); rewrite ?dom_insert_L, !dom_singleton_L;
      split; by vm_compute.
  - exists ∅. split; [done|]. cbn [_sql _params]. rewrite !dom_empty_L.
    rewrite (placeholders_skip "ORDER BY ") by done.
    rewrite placeholders_no_at; [done|].
    apply no_at_concat; [done|].
    clear Hv. induction orderings as [|[column o] os IH]; [done|].
    simpl in *. apply andb_true_iff in Hb as [Hc Hos].
    rewrite IH by done. rewrite andb_true_r. unfold no_at in *.
    rewrite !all_chars_app, Hpre. apply identifier_no_at in Hc.
    unfold no_at in Hc. rewrite Hc. by destruct o.
  - destruct (validate_comparison_column _ _ _ _ _ Hv) as [f Hf].
    simpl. rewrite (getitem_Some _ _ _ Hf). simpl.
    destruct (family op) as [| |nop] eqn:Hop.
    + eexists. split; [done|]. rewrite !dom_singleton_L.
      by rewrite placeholders_comparison_sql.
    + eexists. split; [done|]. rewrite !dom_singleton_L.
      rewrite placeholders_skip by done.
      rewrite (placeholders_skip ".") by done.
      rewrite placeholders_skip by (by apply identifier_no_at).
      rewrite (placeholders_skip " ") by done.
      rewrite placeholders_skip by apply no_at_operator.
      change (" UNNEST(@" ++ column ++ ")")
        with (" UNNEST(" ++ "@" ++ column ++ ")").
      rewrite (placeholders_skip " UNNEST(") by done.
      rewrite placeholders_at_name by done. simpl.
      by rewrite !(right_id_L ∅ (∪)).
    + destruct (is_none value).
      * exists ∅. split; [done|]. rewrite !dom_empty_L.
        rewrite placeholders_no_at; [done|]. unfold no_at in *.
        rewrite !all_chars_app, Hpre. apply identifier_no_at in Hb.
        unfold no_at in Hb. rewrite Hb. simpl.
        destruct op; try done; injection Hop as <-; done.
      * eexists. split; [done|]. rewrite !dom_singleton_L.
        by rewrite placeholders_comparison_sql.
Qed.

Lemma bound_body_outputs m b :
  _sql m (bound_body m b) = _sql m b /\
  _params (bound_body m b) = _params b /\
  _types m (bound_body m b) = _types m b /\
  sql_names_ok m (bound_body m b) = sql_names_ok m b.
Proof. by destruct b. Qed.

(** C1.  After a successful [bind(m)] of a condition of any class, whose
    column names are identifiers and whose table names and aliases hold
    no [@], the names of the placeholders in [sql()] are exactly the keys
    of [params()] and exactly the keys of [types()]. *)
Theorem C1_placeholders_are_keys depth (h : store) r m h' c :
  bind depth h r m = (h', Ok tt) ->
  h' !! r = Some c ->
  sql_names_ok m (body c) = true ->
  exists s p t,
    sql c = Ok s /\ params c = Ok p /\ types c = Ok t /\
    placeholders s = dom p /\ placeholders s = dom t.
Proof.
  intros (self & Hr & Hv & ->)%bind_Ok. rewrite lookup_insert_eq.
  intros [= <-]. cbn [body].
  destruct (bound_body_outputs m (body self)) as (Es & Ep & Et & En).
  rewrite En. intros Hok.
  destruct (placeholders_params_types _ _ _ Hv Hok) as (t & Ht & Hp & Hd).
  exists (_sql m (body self)), (_params (body self)), t.
  unfold sql, params, types. simpl. by rewrite Es, Ep, Et.
Qed.

(** ** Relation inclusion *)

Lemma validate_includes call name extras rel0 m :
  validate_body call (IncludesCondition name extras rel0) m = Ok tt <->
  exists rel,
    relations m !! name = Some rel /\
    Forall (fun e => call e (rel_destination rel) = Ok tt) extras.
Proof.
  simpl. split.
  - destruct (contains (relations m) name) eqn:E; [|done].
    apply contains_getitem in E as (rel & Hrel & ->). simpl.
    intros H%for_each_Ok. eauto.
  - intros (rel & Hrel & H).
    rewrite (contains_Some _ _ _ Hrel), (getitem_Some _ _ _ Hrel). simpl.
    by apply for_each_Ok.
Qed.

Lemma validate_missing_column call b m col :
  names_column b col -> schema m !! col = None ->
  validate_body call b m <> Ok tt.
Proof.
  intros Hn Hcol.
  destruct b as [column dm dc| | |orderings|op column value]; simpl in Hn;
    try done.
  - subst. simpl. by rewrite (contains_None _ _ Hcol).
  - simpl. rewrite for_each_Ok, Forall_forall.
    apply list_elem_of_fmap in Hn as ([column o] & -> & Hin).
    intros H. specialize (H _ Hin). simpl in H, Hcol.
    by rewrite (contains_None _ _ Hcol) in H.
  - subst. intros (f & Hf)%validate_comparison_column. congruence.
Qed.

(** An [includes] that is one of its own extra conditions never passes
    validation: the calls nest until the recursion limit. *)
Lemma validate_ref_not_self depth (h : store) r self name extras rel0 :
  h !! r = Some self ->
  body self = IncludesCondition name extras rel0 ->
  r ∈ extras ->
  forall m, validate_ref depth h r m <> Ok tt.
Proof.
  intros Hr Hb Hin. induction depth as [|depth IH]; intros m; [done|].
  simpl. rewrite Hr, Hb.
  intros (rel & _ & H)%validate_includes.
  rewrite Forall_forall in H. by apply (IH (rel_destination rel)), H.
Qed.

(** C6.  For [includes(relation_name, extra_conditions)]: [bind] fails
    when the relation name is not among the relations of the model; with
    the relation found, [bind] succeeds exactly when each extra condition
    passes its own validation against the destination model of the
    relation, so an extra condition that names a column missing from the
    destination schema makes [bind] fail, whatever the schema of the
    origin holds; and after a successful [bind], [conditions()] is the
    conditions of the relation followed by the extra conditions. *)
Theorem C6_includes_validation depth (h : store) r m name extras :
  h !! r = Some (includes name (Some extras)) ->
  (relations m !! name = None ->
   bind depth h r m = (h, Raise AssertionError)) /\
  (forall rel,
     relations m !! name = Some rel ->
     (snd (bind depth h r m) = Ok tt <->
      Forall (fun e => validate_ref depth h e (rel_destination rel) = Ok tt)
        extras) /\
     (forall e condition col,
        e ∈ extras -> h !! e = Some condition ->
        names_column (body condition) col ->
        schema (rel_destination rel) !! col = None ->
        exists err, bind depth h r m = (h, Raise err))) /\
  (forall h',
     bind depth h r m = (h', Ok tt) ->
     exists c rel,
       h' !! r = Some c /\ relations m !! name = Some rel /\
       conditions c = Ok (rel_conditions rel ++ extras)%list).
Proof.
  intros Hr.
  assert (Hiff : forall rel, relations m !! name = Some rel ->
    snd (bind depth h r m) = Ok tt <->
    Forall (fun e => validate_ref depth h e (rel_destination rel) = Ok tt)
      extras).
  { intros rel Hrel. split.
    - destruct (bind depth h r m) as [h' [[]|e]] eqn:Hb; [|done]. intros _.
      apply bind_Ok in Hb as (self & Hr' & Hv & _).
      rewrite Hr in Hr'. injection Hr' as <-.
      destruct (proj1 (validate_includes (validate_ref depth h) name extras None m) Hv)
        as (rel' & Hrel' & H).
      rewrite Hrel in Hrel'. by injection Hrel' as <-.
    - intros H. erewrite (bind_validate _ _ _ _ _ Hr); [done|].
      apply (validate_includes (validate_ref depth h) name extras None m).
      eauto. }
  split; [|split].
  - intros Hrel. apply (bind_fails _ _ _ _ _ _ Hr).
    unfold _validate. simpl. by rewrite (contains_None _ _ Hrel).
  - intros rel Hrel. split; [by apply Hiff|].
    intros e condition col Hin He Hn Hcol.
    pose proof (proj1 (Hiff rel Hrel)) as H.
    destruct (bind depth h r m) as [h' [[]|err]] eqn:Hb.
    + exfalso. specialize (H eq_refl).
      rewrite Forall_forall in H. specialize (H _ Hin).
      destruct depth as [|depth]; [done|]. simpl in H. rewrite He in H.
      by apply (validate_missing_column _ _ _ _ Hn Hcol) in H.
    + exists err. by rewrite (bind_Raise _ _ _ _ _ _ Hb).
  - intros h' (self & Hr' & Hv & ->)%bind_Ok.
    rewrite Hr in Hr'. injection Hr' as <-.
    destruct (proj1 (validate_includes (validate_ref depth h) name extras None m) Hv) as (rel & Hrel & _).
    eexists _, rel. rewrite lookup_insert_eq. split; [done|].
    split; [done|]. unfold conditions. simpl. by rewrite Hrel.
Qed.

(** C10.  A successful [bind] of an [includes] writes the receiver only:
    every extra condition is among [conditions()] and is the object it
    was, so one that was unbound is still unbound and raises the
    unbound-use error from [sql()], [params()] and [types()], until a
    [bind] of its own succeeds. *)
Theorem C10_includes_leaves_extras_unbound depth (h : store) r m h' name
    extras :
  h !! r = Some (includes name (Some extras)) ->
  bind depth h r m = (h', Ok tt) ->
  exists c cs,
    h' !! r = Some c /\ conditions c = Ok cs /\
    forall e, e ∈ extras ->
      e ∈ cs /\ h' !! e = h !! e /\
      forall condition,
        h !! e = Some condition -> model condition = None ->
        sql condition = Raise (SpannerError (MustBeBound "sql")) /\
        params condition = Raise (SpannerError (MustBeBound "params")) /\
        types condition = Raise (SpannerError (MustBeBound "types")) /\
        forall depth' m' h'',
          bind depth' h' e m' = (h'', Ok tt) ->
          exists bound s p t,
            h'' !! e = Some bound /\ model bound = Some m' /\
            sql bound = Ok s /\ params bound = Ok p /\ types bound = Ok t.
Proof.
  intros Hr Hb. pose proof Hb as (self & Hr' & Hv & ->)%bind_Ok.
  rewrite Hr in Hr'. injection Hr' as <-.
  destruct (proj1 (validate_includes (validate_ref depth h) name extras None m) Hv) as (rel & Hrel & Hall).
  eexists _, (rel_conditions rel ++ extras)%list.
  rewrite lookup_insert_eq. split; [done|]. split.
  { unfold conditions. simpl. by rewrite Hrel. }
  intros e Hin. split; [set_solver|].
  assert (e <> r) as Hne.
  { intros ->. rewrite Forall_forall in Hall.
    by apply (validate_ref_not_self depth h r _ name extras None Hr eq_refl
                Hin (rel_destination rel)), Hall. }
  split; [by rewrite lookup_insert_ne|].
  intros condition He Hm.
  destruct (unbound_raises _ Hm) as (Hs & Hp & Ht).
  repeat (split; [done|]). intros depth' m' h''. apply bind_Ok_methods.
Qed.

(** ** The properties at the sample models *)

(** The conditions of [sample_store], bound by hand. *)
Example bind_sample_includes :
  snd (bind 1 sample_store 3 IndexSchema) = Ok tt /\
  snd (bind 0 sample_store 3 IndexSchema) = Raise RecursionError /\
  snd (bind 1 sample_store 6 IndexSchema) = Raise AssertionError /\
  snd (bind 1 sample_store 7 IndexSchema) = Raise AssertionError.
Proof. repeat split; by vm_compute. Qed.

Example sql_sample_columns_equal :
  (c ← fst (bind 0 sample_store 100 IndexSchema) !! 100; Some (sql c)) =
  Some (Ok ("information_schema.indexes.index_name = " ++
            "information_schema.index_columns.index_name")).
Proof. by vm_compute. Qed.

Lemma C1_placeholders_are_keys_witness :
  let c := mkCondition (Some IndexColumnSchema)
             (ComparisonCondition Inequality "ordinal_position" (VInt 3)) in
  bind 0 sample_store 2 IndexColumnSchema =
    (<[ 2 := c ]> sample_store, Ok tt) /\
  exists s p t,
    sql c = Ok s /\ params c = Ok p /\ types c = Ok t /\
    placeholders s = dom p /\ placeholders s = dom t.
Proof.
  intros c.
  assert (Hb : bind 0 sample_store 2 IndexColumnSchema =
                 (<[ 2 := c ]> sample_store, Ok tt)) by (by vm_compute).
  split; [exact Hb|].
  apply (C1_placeholders_are_keys 0 sample_store 2 IndexColumnSchema
           (<[ 2 := c ]> sample_store) c Hb); by vm_compute.
Defined.

Lemma C2_unbound_use_error_witness :
  sql (equal_to "column_ordering" VNone) =
    Raise (SpannerError (MustBeBound "sql")) /\
  (forall h' e,
     bind 1 sample_store 4 IndexSchema = (h', Raise e) ->
     h' !! 4 = Some (equal_to "table_name" VNone)) /\
  exists c s p t,
    fst (bind 0 sample_store 1 IndexColumnSchema) !! 1 = Some c /\
    model c = Some IndexColumnSchema /\
    sql c = Ok s /\ params c = Ok p /\ types c = Ok t.
Proof.
  destruct C2_unbound_use_error as (Hnew & Hfail & Hbound).
  split; [apply (Hnew (ComparisonCondition Equality "column_ordering" VNone))|].
  split.
  - intros h' e Hb.
    by apply (Hfail 1 sample_store 4 IndexSchema h' e
                (equal_to "table_name" VNone) eq_refl eq_refl Hb).
  - apply (Hbound 0 sample_store 1 IndexColumnSchema). by vm_compute.
Defined.

(** Against C3 as stated: [table_name] is a column of the schema, and
    binding [equal_to("table_name", None)] fails, because the validator
    of the field, which is not nullable, rejects [None]. *)
Lemma C3_counterexample :
  sample_store !! 4 = Some (equal_to "table_name" VNone) /\
  schema IndexSchema !! "table_name" = Some (StringField false) /\
  bind 1 sample_store 4 IndexSchema = (sample_store, Raise AssertionError).
Proof. repeat split; by vm_compute. Qed.

Lemma C3_none_left_to_field_validator_witness :
  snd (bind 1 sample_store 5 IndexSchema) = Ok tt /\
  bind 1 sample_store 4 IndexSchema = (sample_store, Raise AssertionError).
Proof.
  split.
  - apply (C3_none_left_to_field_validator 1 sample_store 5 IndexSchema
             "parent_table_name" (or_introl eq_refl)).
    exists (StringField true). by split.
  - apply (proj2 (C3_none_left_to_field_validator 1 sample_store 4
                    IndexSchema "table_name" (or_introl eq_refl))
             (StringField false)); reflexivity.
Defined.

Lemma C4_null_aware_sql_witness :
  exists c f,
    fst (bind 0 sample_store 1 IndexColumnSchema) !! 1 = Some c /\
    schema IndexColumnSchema !! "column_ordering" = Some f /\
    sql c = Ok "index_columns.column_ordering IS NULL" /\
    params c = Ok ∅ /\ types c = Ok ∅.
Proof.
  destruct (C4_null_aware_sql 0 sample_store 1 IndexColumnSchema
              (fst (bind 0 sample_store 1 IndexColumnSchema))
              "column_ordering" VNone (or_introl eq_refl))
    as (c & f & Hc & Hf & Hnone & _); [by vm_compute|].
  destruct (Hnone eq_refl) as (Heq & _ & Hp & Ht).
  destruct (Heq eq_refl) as [Hs _].
  exists c, f. repeat split; assumption.
Defined.

Lemma C5_columns_equal_witness :
  exists c,
    bind 0 sample_store 100 IndexSchema = (<[ 100 := c ]> sample_store, Ok tt)
    /\
    sql c = Ok ("information_schema.indexes.index_name = " ++
                "information_schema.index_columns.index_name") /\
    params c = Ok ∅ /\ types c = Ok ∅.
Proof.
  apply (proj2 (C5_columns_equal 0 sample_store 100 IndexSchema "index_name"
                  IndexColumnSchema "index_name" eq_refl)
           (StringField false) (StringField false)); reflexivity.
Defined.

Lemma C6_includes_validation_witness :
  bind 1 sample_store 7 IndexSchema = (sample_store, Raise AssertionError) /\
  (exists err, bind 1 sample_store 6 IndexSchema = (sample_store, Raise err))
  /\
  exists c,
    fst (bind 1 sample_store 3 IndexSchema) !! 3 = Some c /\
    conditions c = Ok [100; 1; 2].
Proof.
  split; [|split].
  - apply (C6_includes_validation 1 sample_store 7 IndexSchema "rows" []
             eq_refl). reflexivity.
  - apply (proj1 (proj2 (C6_includes_validation 1 sample_store 6 IndexSchema
                           "columns" [5] eq_refl))
             (mkRelation [100] IndexColumnSchema) eq_refl)
      with (e := 5) (condition := equal_to "parent_table_name" VNone)
           (col := "parent_table_name").
    + constructor.
    + reflexivity.
    + reflexivity.
    + reflexivity.
  - destruct (proj2 (proj2 (C6_includes_validation 1 sample_store 3
                              IndexSchema "columns" [1; 2] eq_refl))
                (fst (bind 1 sample_store 3 IndexSchema)))
      as (c & rel & Hc & Hrel & Hcs); [by vm_compute|].
    exists c. split; [done|]. rewrite Hcs. injection Hrel as <-. done.
Defined.

Lemma C7_limit_offset_witness :
  exists c,
    bind 0 sample_store 8 IndexColumnSchema =
      (<[ 8 := c ]> sample_store, Ok tt) /\
    sql c = Ok "LIMIT @limit OFFSET @offset" /\
    params c = Ok (<[ "offset" := VInt 5 ]> {[ "limit" := VInt 10 ]}).
Proof.
  destruct (proj2 (proj2 (C7_limit_offset 10 5 0 sample_store 8
                            IndexColumnSchema)) eq_refl)
    as (c & Hb & _ & Hoff).
  destruct Hoff as (Hs & Hp & _); [done|].
  exists c. by repeat split.
Defined.

Lemma C8_construction_time_errors_witness :
  (exists v, isinstance_int v = false /\
     limit_offset (VInt 10) (VStr "5") = Raise (SpannerError (NotInt v))) /\
  limit_offset (VInt 10) (VInt 5) =
    Ok (new (LimitCondition (VInt 10) (VInt 5))) /\
  (exists v, is_order_type v = false /\
     order_by [("table_name", VOrder ASC); ("index_name", VStr "DESC")] =
       Raise (SpannerError (NotOrderType v))) /\
  order_by [("table_name", VOrder ASC); ("index_name", VOrder DESC)] =
    Ok (new (OrderByCondition [("table_name", ASC); ("index_name", DESC)])).
Proof.
  destruct C8_construction_time_errors as (Hbad & Hgood & _ & Hdir & Hord).
  split; [apply Hbad; by right|]. split; [by apply Hgood|].
  split.
  - apply Hdir. apply Exists_cons_tl, Exists_cons_hd. reflexivity.
  - apply (Hord [("table_name", ASC); ("index_name", DESC)]).
Defined.

Lemma C10_includes_leaves_extras_unbound_witness :
  exists c cs,
    fst (bind 1 sample_store 3 IndexSchema) !! 3 = Some c /\
    conditions c = Ok cs /\
    1 ∈ cs /\
    fst (bind 1 sample_store 3 IndexSchema) !! 1 =
      Some (equal_to "column_ordering" VNone) /\
    sql (equal_to "column_ordering" VNone) =
      Raise (SpannerError (MustBeBound "sql")).
Proof.
  destruct (C10_includes_leaves_extras_unbound 1 sample_store 3 IndexSchema
              (fst (bind 1 sample_store 3 IndexSchema)) "columns" [1; 2]
              eq_refl)
    as (c & cs & Hc & Hcs & Hextras); [by vm_compute|].
  destruct (Hextras 1) as (Hin & Hsame & Hunbound); [constructor|].
  destruct (Hunbound (equal_to "column_ordering" VNone) eq_refl eq_refl)
    as (Hs & _).
  exists c, cs. rewrite Hsame. by repeat split.
Defined.

(** * Further properties of the module *)

(** ** [bind] and the store *)

(** [bind] in one equation: the receiver is validated, and written when
    validation returns. *)
Lemma bind_eq depth (h : store) r m :
  bind depth h r m =
    match h !! r with
    | None => (h, Raise NoSuchObject)
    | Some self =>
        match _validate depth h (body self) m with
        | Ok _ =>
            (<[ r := mkCondition (Some m) (bound_body m (body self)) ]> h,
             Ok tt)
        | Raise e => (h, Raise e)
        end
    end.
Proof.
  destruct (h !! r) as [self|] eqn:Hr.
  - destruct (_validate depth h (body self) m) as [[]|e] eqn:Hv.
    + by apply bind_validate.
    + by apply bind_fails with self.
  - unfold bind, Condition_bind. by rewrite Hr.
Qed.

Lemma bind_lookup_ne depth (h : store) r m r' :
  r' <> r -> fst (bind depth h r m) !! r' = h !! r'.
Proof.
  intros Hne. rewrite bind_eq.
  destruct (h !! r) as [self|] eqn:Hr; [|done].
  destruct (_validate depth h (body self) m) as [[]|e]; [|done].
  simpl. by rewrite lookup_insert_ne.
Qed.

(** [bind] writes the receiver and nothing else: every other object is
    as it was, and no object is added to or removed from the store,
    whether [bind] returns or raises. *)
Theorem bind_writes_receiver_only depth (h : store) r m r' :
  r' <> r ->
  fst (bind depth h r m) !! r' = h !! r' /\
  dom (fst (bind depth h r m)) = dom h.
Proof.
  intros Hne. rewrite bind_eq.
  destruct (h !! r) as [self|] eqn:Hr; [|done].
  destruct (_validate depth h (body self) m) as [[]|e]; [|done].
  simpl. split; [by rewrite lookup_insert_ne|].
  rewrite dom_insert_L. apply (elem_of_dom_2 (D := gset nat)) in Hr.
  apply subseteq_union_1_L. by apply singleton_subseteq_l.
Qed.

(** Binding a condition that is already bound: when validation against
    the new model fails the condition stays bound to the earlier model
    and its SQL is the one it had, and when it succeeds the new model
    replaces the earlier one. *)
Theorem rebind_keeps_or_replaces depth (h : store) r m1 m2 c h' :
  h !! r = Some c -> model c = Some m1 ->
  (forall e,
     bind depth h r m2 = (h', Raise e) ->
     h' !! r = Some c /\ sql c = Ok (_sql m1 (body c))) /\
  (bind depth h r m2 = (h', Ok tt) ->
   exists c',
     h' !! r = Some c' /\ model c' = Some m2 /\
     sql c' = Ok (_sql m2 (body c)) /\ params c' = params c).
Proof.
  intros Hr Hm. split.
  - intros e ->%bind_Raise. split; [done|].
    unfold sql, must_be_bound. by rewrite Hm.
  - intros (self & Hr' & _ & ->)%bind_Ok.
    rewrite Hr in Hr'. injection Hr' as <-.
    eexists. rewrite lookup_insert_eq. split; [done|]. split; [done|].
    destruct (bound_body_outputs m2 (body c)) as (Es & Ep & _).
    unfold sql, params, must_be_bound. simpl. by rewrite Es, Ep, Hm.
Qed.

Lemma for_each_ext {A} (f g : A -> res unit) l :
  (forall x, f x = g x) -> for_each f l = for_each g l.
Proof. intros E. induction l as [|x l IH]; simpl; [done|]. by rewrite E, IH. Qed.

Lemma validate_body_ext call1 call2 b1 b2 m :
  validated_part b1 = validated_part b2 ->
  (forall e m', call1 e m' = call2 e m') ->
  validate_body call1 b1 m = validate_body call2 b2 m.
Proof.
  intros Hb Hcall. destruct b1, b2; simplify_eq/=; try done.
  destruct (assert _); [|done]. simpl.
  destruct (getitem _ _); [|done]. simpl. by apply for_each_ext.
Qed.

(** Validation reads the attributes that no [bind] writes: two stores
    that agree on them validate alike. *)
Lemma validate_ref_ext depth (h1 h2 : store) :
  (forall e, validated_part ∘ body <$> h1 !! e =
             validated_part ∘ body <$> h2 !! e) ->
  forall e m, validate_ref depth h1 e m = validate_ref depth h2 e m.
Proof.
  intros Hh. induction depth as [|depth IH]; intros e m; [done|]. simpl.
  specialize (Hh e).
  destruct (h1 !! e) as [c1|], (h2 !! e) as [c2|]; try done.
  injection Hh as Hh. by apply validate_body_ext.
Qed.

Lemma bound_body_validated_part m b :
  validated_part (bound_body m b) = validated_part b.
Proof. by destruct b. Qed.

Lemma bound_body_idemp m b : bound_body m (bound_body m b) = bound_body m b.
Proof. destruct b; try done. simpl. by destruct (relations m !! name). Qed.

Lemma bind_validated_part depth (h : store) r m e :
  validated_part ∘ body <$> fst (bind depth h r m) !! e =
  validated_part ∘ body <$> h !! e.
Proof.
  rewrite bind_eq. destruct (h !! r) as [self|] eqn:Hr; [|done].
  destruct (_validate depth h (body self) m) as [[]|err]; [|done]. simpl.
  destruct (decide (e = r)) as [->|Hne].
  - rewrite lookup_insert_eq, Hr. simpl.
    by rewrite bound_body_validated_part.
  - by rewrite lookup_insert_ne.
Qed.

(** No [bind] changes what validation answers, for any condition, model
    and store reached by the [bind]. *)
Lemma bind_validate_ref depth depth' (h : store) r m e m' :
  validate_ref depth' (fst (bind depth h r m)) e m' =
  validate_ref depth' h e m'.
Proof. apply validate_ref_ext. intros e'. apply bind_validated_part. Qed.

Lemma bind_validate_body depth depth' (h : store) r m b m' :
  _validate depth' (fst (bind depth h r m)) b m' = _validate depth' h b m'.
Proof.
  unfold _validate. apply validate_body_ext; [done|].
  intros e m''. apply bind_validate_ref.
Qed.

(** Binding a bound condition to the same model again succeeds and
    changes nothing. *)
Theorem bind_twice_same_model depth (h : store) r m h' :
  bind depth h r m = (h', Ok tt) ->
  bind depth h' r m = (h', Ok tt).
Proof.
  intros Hb. pose proof (bind_validate_body depth depth h r m) as Hsame.
  rewrite Hb in Hsame. simpl in Hsame.
  apply bind_Ok in Hb as (self & Hr & Hv & ->).
  rewrite bind_eq, lookup_insert_eq. cbn [body].
  unfold _validate in *.
  erewrite validate_body_ext;
    [|apply bound_body_validated_part
     |intros e m'; apply (validate_ref_ext depth); intros e'; reflexivity].
  unfold _validate in Hsame. rewrite Hsame, Hv.
  by rewrite bound_body_idemp, insert_insert_eq.
Qed.

(** Binding two conditions in either order gives the same results and
    the same store. *)
Theorem bind_order_irrelevant depth (h : store) r1 m1 r2 m2 :
  r1 <> r2 ->
  let first1 := bind depth h r1 m1 in
  let first2 := bind depth h r2 m2 in
  snd (bind depth (fst first1) r2 m2) = snd first2 /\
  snd (bind depth (fst first2) r1 m1) = snd first1 /\
  fst (bind depth (fst first1) r2 m2) = fst (bind depth (fst first2) r1 m1).
Proof.
  intros Hne first1 first2.
  assert (H2 : bind depth (fst first1) r2 m2 =
    match h !! r2 with
    | None => (fst first1, Raise NoSuchObject)
    | Some self =>
        match _validate depth h (body self) m2 with
        | Ok _ =>
            (<[ r2 := mkCondition (Some m2) (bound_body m2 (body self)) ]>
               (fst first1), Ok tt)
        | Raise e => (fst first1, Raise e)
        end
    end).
  { rewrite bind_eq. subst first1.
    rewrite (bind_lookup_ne depth h r1 m1 r2 (not_eq_sym Hne)).
    destruct (h !! r2) as [self|]; [|done].
    by rewrite bind_validate_body. }
  assert (H1 : bind depth (fst first2) r1 m1 =
    match h !! r1 with
    | None => (fst first2, Raise NoSuchObject)
    | Some self =>
        match _validate depth h (body self) m1 with
        | Ok _ =>
            (<[ r1 := mkCondition (Some m1) (bound_body m1 (body self)) ]>
               (fst first2), Ok tt)
        | Raise e => (fst first2, Raise e)
        end
    end).
  { rewrite bind_eq. subst first2.
    rewrite (bind_lookup_ne depth h r2 m2 r1 Hne).
    destruct (h !! r1) as [self|]; [|done].
    by rewrite bind_validate_body. }
  rewrite H1, H2. subst first1 first2. rewrite !bind_eq.
  destruct (h !! r1) as [s1|], (h !! r2) as [s2|]; try done;
    repeat match goal with
           | |- context [_validate ?d ?h ?b ?m] =>
               destruct (_validate d h b m) as [[]|?]
           end; simpl; repeat split; try done.
  by apply insert_insert_ne.
Qed.

(** ** The bound on nested validation *)

Lemma validate_body_mono (call1 call2 : nat -> Model -> res unit) b m :
  (forall e m', call1 e m' = Ok tt -> call2 e m' = Ok tt) ->
  validate_body call1 b m = Ok tt -> validate_body call2 b m = Ok tt.
Proof.
  intros Hcall. destruct b; try done.
  rewrite !validate_includes. intros (rel & Hrel & H). exists rel.
  split; [done|]. eapply Forall_impl; [exact H|]. intros e. apply Hcall.
Qed.

Lemma validate_ref_mono depth depth' (h : store) e m :
  depth <= depth' ->
  validate_ref depth h e m = Ok tt -> validate_ref depth' h e m = Ok tt.
Proof.
  revert depth' e m. induction depth as [|depth IH]; intros depth' e m Hle;
    [done|].
  destruct depth' as [|depth']; [lia|]. simpl.
  destruct (h !! e) as [c|]; [|done].
  apply validate_body_mono. intros e' m'. apply IH. lia.
Qed.

(** A [bind] that succeeds within some nesting bound succeeds, with the
    same store, within every larger one: the result does not depend on
    the bound once it is large enough. *)
Theorem bind_depth_monotone depth depth' (h : store) r m h' :
  depth <= depth' ->
  bind depth h r m = (h', Ok tt) ->
  bind depth' h r m = (h', Ok tt).
Proof.
  intros Hle (self & Hr & Hv & ->)%bind_Ok.
  apply bind_validate; [done|]. revert Hv. unfold _validate.
  apply validate_body_mono. intros e m'. by apply validate_ref_mono.
Qed.

(** ** Keys and segments *)

(** After a successful [bind], whatever the names of the columns,
    [params()] and [types()] have the same keys. *)
Theorem params_types_same_keys depth (h : store) r m h' :
  bind depth h r m = (h', Ok tt) ->
  exists c p t,
    h' !! r = Some c /\ params c = Ok p /\ types c = Ok t /\ dom p = dom t.
Proof.
  intros (self & Hr & Hv & ->)%bind_Ok.
  destruct (validated_types _ _ _ Hv) as [t Ht].
  destruct (bound_body_outputs m (body self)) as (_ & Ep & Et & _).
  exists (mkCondition (Some m) (bound_body m (body self))),
    (_params (body self)), t.
  rewrite lookup_insert_eq. split; [done|].
  split; [unfold params; simpl; by rewrite Ep|]. split; [done|].
  rewrite Et in Ht. clear Ep Et Hr. unfold _validate in Hv.
  destruct (body self) as [| |l o| |op column value]; simpl in Ht |- *;
    try (by injection Ht as <-).
  - injection Ht as <-.
    destruct (truthy o); by rewrite ?dom_insert_L, !dom_singleton_L.
  - destruct (validate_comparison_column _ _ _ _ _ Hv) as [f Hf].
    rewrite (getitem_Some _ _ _ Hf) in Ht. simpl in Ht.
    destruct (family op); [| |destruct (is_none value)];
      injection Ht as <-; by rewrite ?dom_empty_L, ?dom_singleton_L.
Qed.

(** [segment()] is fixed by the class of a condition: the factories give
    the segments below, and no [bind], returning or raising, changes the
    segment of its receiver. *)
Theorem segment_fixed_by_class :
  (forall op column value, segment (comparison op column value) = WHERE) /\
  (forall relation extras, segment (includes relation extras) = JOIN) /\
  (forall value offset c,
     limit_offset value offset = Ok c -> segment c = LIMIT) /\
  (forall orderings c, order_by orderings = Ok c -> segment c = ORDER_BY) /\
  (forall depth (h : store) r m c,
     h !! r = Some c ->
     exists c',
       fst (bind depth h r m) !! r = Some c' /\ segment c' = segment c).
Proof.
  repeat split.
  - intros value offset c. unfold limit_offset.
    destruct (for_each _ _); [|done]. by intros [= <-].
  - intros orderings c. unfold order_by.
    destruct (check_orderings orderings); [|done]. by intros [= <-].
  - intros depth h r m c Hr. rewrite bind_eq, Hr.
    destruct (_validate depth h (body c) m) as [[]|e]; [|eauto].
    eexists. simpl. rewrite lookup_insert_eq. split; [done|].
    unfold segment. simpl. by destruct (body c).
Qed.

(** ** Comparisons with a value *)

(** [greater_than], [greater_than_or_equal_to], [less_than] and
    [less_than_or_equal_to]: [bind] succeeds exactly when the column is in
    the schema, the value is not [None] and the validator of the field
    accepts the value; a [None] value raises [AssertionError] even when
    the validator would accept it.  The bound condition has the SQL
    [<alias>.<column> <operator> @<column>], the value under the column's
    name in [params()] and the scalar wire type of the field in
    [types()]. *)
Theorem plain_comparison_bind depth (h : store) r m op column value :
  family op = Plain ->
  h !! r = Some (comparison op column value) ->
  (snd (bind depth h r m) = Ok tt <->
   exists f, schema m !! column = Some f /\ value <> VNone /\
             validate f value = Ok tt) /\
  (value = VNone -> bind depth h r m = (h, Raise AssertionError)) /\
  (forall h',
     bind depth h r m = (h', Ok tt) ->
     exists c f,
       h' !! r = Some c /\ schema m !! column = Some f /\
       sql c = Ok (column_prefix m ++ "." ++ column ++ " " ++ operator op ++
                   " @" ++ column) /\
       params c = Ok {[ column := value ]} /\
       types c = Ok {[ column := grpc_type f ]}).
Proof.
  intros Hop Hr.
  assert (Hval : forall f, schema m !! column = Some f ->
    _validate depth h (body (comparison op column value)) m =
    (assert (negb (is_none value)) ;;; validate f value)).
  { intros f Hf. unfold _validate. simpl. rewrite Hop.
    by rewrite (contains_Some _ _ _ Hf), (getitem_Some _ _ _ Hf). }
  split; [split|split].
  - rewrite bind_eq, Hr.
    destruct (_validate _ _ _ _) as [[]|e] eqn:Hv; [|done]. intros _.
    unfold _validate in Hv.
    destruct (validate_comparison_column _ _ _ _ _ Hv) as [f Hf].
    exists f. split; [done|]. specialize (Hval f Hf).
    destruct value; simpl in Hval; try done; by split.
  - intros (f & Hf & Hne & Hv). rewrite bind_eq, Hr, (Hval f Hf).
    destruct value; try done.
    all: simpl; by rewrite Hv.
  - intros ->. rewrite bind_eq, Hr. unfold _validate. simpl. rewrite Hop.
    destruct (contains (schema m) column); reflexivity.
  - intros h' (self & Hr' & Hv & ->)%bind_Ok.
    rewrite Hr in Hr'. injection Hr' as <-. unfold _validate in Hv.
    destruct (validate_comparison_column _ _ _ _ _ Hv) as [f Hf].
    eexists _, f. rewrite lookup_insert_eq. split; [done|]. split; [done|].
    unfold sql, params, types. simpl. rewrite Hop.
    by rewrite (getitem_Some _ _ _ Hf).
Qed.

(** A condition of any class that names a column missing from the schema
    it is validated against fails to bind with [AssertionError], and
    stays as it was. *)
Theorem unknown_column_fails depth (h : store) r m c col :
  h !! r = Some c ->
  names_column (body c) col ->
  schema m !! col = None ->
  bind depth h r m = (h, Raise AssertionError).
Proof.
  intros Hr Hn Hcol. apply (bind_fails _ _ _ _ _ _ Hr). unfold _validate.
  destruct (body c) as [column dm dc| | |orderings|op column value];
    simpl in Hn; try done.
  - subst. simpl. by rewrite (contains_None _ _ Hcol).
  - simpl. apply list_elem_of_fmap in Hn as ([column o] & -> & Hin).
    simpl in Hcol. induction orderings as [|[c' o'] os IH];
      [by apply elem_of_nil in Hin|].
    simpl. destruct (contains (schema m) c') eqn:E; [|done]. simpl.
    apply elem_of_cons in Hin as [[= <- <-]|Hin]; [|by apply IH].
    by rewrite (contains_None _ _ Hcol) in E.
  - subst. simpl. rewrite (contains_None _ _ Hcol).
    destruct (family op); [done| |done]. by destruct value.
Qed.

(** ** Comparisons with a list *)

Lemma for_each_first_error {A} (f : A -> res unit) passed x rest e :
  Forall (fun y => f y = Ok tt) passed -> f x = Raise e ->
  for_each f (passed ++ x :: rest) = Raise e.
Proof.
  intros Hp Hx. induction Hp as [|y l Hy _ IH]; simpl.
  - by rewrite Hx.
  - by rewrite Hy.
Qed.

(** [in_list] and [not_in_list]: a value that is not a list raises
    [AssertionError] whatever the schema; with a list, [bind] succeeds
    exactly when the column is in the schema and the validator of the
    field accepts every element, so the empty list binds to every model
    that has the column.  The bound condition has the SQL
    [<alias>.<column> <operator> UNNEST(@<column>)], the list under the
    column's name in [params()] and the list wire type of the field in
    [types()]. *)
Theorem list_comparison_bind depth (h : store) r m op column value :
  family op = ListComparison ->
  h !! r = Some (comparison op column value) ->
  ((forall values, value <> VList values) ->
   bind depth h r m = (h, Raise AssertionError)) /\
  (forall values,
     value = VList values ->
     (snd (bind depth h r m) = Ok tt <->
      exists f, schema m !! column = Some f /\
                Forall (fun v => validate f v = Ok tt) values)) /\
  (forall h',
     bind depth h r m = (h', Ok tt) ->
     exists c f,
       h' !! r = Some c /\ schema m !! column = Some f /\
       sql c = Ok (column_prefix m ++ "." ++ column ++ " " ++ operator op ++
                   " UNNEST(@" ++ column ++ ")") /\
       params c = Ok {[ column := value ]} /\
       types c = Ok {[ column := grpc_list_type f ]}).
Proof.
  intros Hop Hr. split; [|split].
  - intros Hnl. rewrite bind_eq, Hr. unfold _validate. simpl. rewrite Hop.
    destruct value; try done. by destruct (Hnl l).
  - intros values ->. rewrite bind_eq, Hr. unfold _validate. simpl.
    rewrite Hop. split.
    + destruct (schema m !! column) as [f|] eqn:Hf.
      * rewrite (contains_Some _ _ _ Hf). simpl.
        destruct (for_each _ values) as [[]|e] eqn:Hv; [|done]. intros _.
        exists f. split; [done|]. apply for_each_Ok in Hv.
        eapply Forall_impl; [exact Hv|]. intros v. simpl.
        by rewrite (getitem_Some _ _ _ Hf).
      * by rewrite (contains_None _ _ Hf).
    + intros (f & Hf & Hall). rewrite (contains_Some _ _ _ Hf). simpl.
      assert (for_each (fun v => f0 <- getitem (schema m) column ;;
                                 validate f0 v) values = Ok tt) as ->; [|done].
      apply for_each_Ok. eapply Forall_impl; [exact Hall|]. intros v. simpl.
      by rewrite (getitem_Some _ _ _ Hf).
  - intros h' (self & Hr' & Hv & ->)%bind_Ok.
    rewrite Hr in Hr'. injection Hr' as <-. unfold _validate in Hv.
    destruct (validate_comparison_column _ _ _ _ _ Hv) as [f Hf].
    eexists _, f. rewrite lookup_insert_eq. split; [done|]. split; [done|].
    unfold sql, params, types. simpl. rewrite Hop.
    by rewrite (getitem_Some _ _ _ Hf).
Qed.

(** The elements of the list are validated in order, and [bind] raises
    what the validator raises on the first element it rejects. *)
Theorem list_comparison_first_rejected depth (h : store) r m op column f
    accepted rejected rest e :
  family op = ListComparison ->
  h !! r =
    Some (comparison op column (VList (accepted ++ rejected :: rest))) ->
  schema m !! column = Some f ->
  Forall (fun v => validate f v = Ok tt) accepted ->
  validate f rejected = Raise e ->
  bind depth h r m = (h, Raise e).
Proof.
  intros Hop Hr Hf Hacc Hrej. apply (bind_fails _ _ _ _ _ _ Hr).
  unfold _validate. simpl. rewrite Hop, (contains_Some _ _ _ Hf). simpl.
  apply for_each_first_error.
  - eapply Forall_impl; [exact Hacc|]. intros v. simpl.
    by rewrite (getitem_Some _ _ _ Hf).
  - by rewrite (getitem_Some _ _ _ Hf).
Qed.

(** With a value other than [None], [equal_to] and [not_equal_to] are
    validated as the comparisons without a null form are: the two
    [bind]s return or raise alike. *)
Theorem nullable_falls_back depth (h : store) r r' m op op' nop column
    value :
  family op = NullableComparison nop -> family op' = Plain ->
  value <> VNone ->
  h !! r = Some (comparison op column value) ->
  h !! r' = Some (comparison op' column value) ->
  snd (bind depth h r m) = snd (bind depth h r' m).
Proof.
  intros Hop Hop' Hne Hr Hr'. rewrite !bind_eq, Hr, Hr'.
  unfold _validate. simpl. rewrite Hop, Hop'.
  destruct (contains (schema m) column); [|done]. simpl.
  destruct value; try done; simpl;
    destruct (getitem (schema m) column) as [f|]; simpl; try done;
    by destruct (validate f _) as [[]|].
Qed.

(** ** Ordering *)

Lemma orderings_sql m (os : list (string * OrderType)) :
  map (fun '(column, order_type) =>
         column_prefix m ++ "." ++ column ++ " " ++ order_name order_type) os
  = map (ordering_sql m) os.
Proof. apply map_ext. by intros []. Qed.

Lemma concat_app sep (l1 l2 : list string) :
  l1 <> [] -> l2 <> [] ->
  String.concat sep (l1 ++ l2) =
  String.concat sep l1 ++ sep ++ String.concat sep l2.
Proof.
  intros H1 H2. induction l1 as [|x l1 IH]; [done|].
  destruct l1 as [|y l1].
  - simpl. by destruct l2.
  - change (String.concat sep ((x :: y :: l1) ++ l2))
      with (x ++ sep ++ String.concat sep ((y :: l1) ++ l2)).
    rewrite IH by done.
    change (String.concat sep (x :: y :: l1))
      with (x ++ sep ++ String.concat sep (y :: l1)).
    by rewrite !append_assoc.
Qed.

(** [order_by]: [bind] succeeds exactly when every column is in the
    schema.  The bound condition has no parameters and no types, and its
    SQL lists the orderings in the order given: that of [os1] followed
    by [os2] is that of [os1], a comma, and that of [os2]. *)
Theorem order_by_bind depth (h : store) r m os :
  h !! r = Some (new (OrderByCondition os)) ->
  (snd (bind depth h r m) = Ok tt <->
   Forall (fun o => is_Some (schema m !! o.1)) os) /\
  (forall h',
     bind depth h r m = (h', Ok tt) ->
     exists c,
       h' !! r = Some c /\
       sql c = Ok ("ORDER BY " ++ String.concat ", " (map (ordering_sql m) os))
       /\ params c = Ok ∅ /\ types c = Ok ∅) /\
  (forall os1 os2,
     os = (os1 ++ os2)%list -> os1 <> [] -> os2 <> [] ->
     _sql m (OrderByCondition os) =
       _sql m (OrderByCondition os1) ++ ", " ++
       String.concat ", " (map (ordering_sql m) os2)).
Proof.
  intros Hr. split; [|split].
  - rewrite bind_eq, Hr. unfold _validate. simpl.
    destruct (for_each _ os) as [[]|e] eqn:Hv.
    + split; [intros _|done]. apply for_each_Ok in Hv.
      eapply Forall_impl; [exact Hv|]. intros [column o]. simpl.
      intros H%assert_Ok. by apply contains_true.
    + split; [done|]. intros H.
      assert (for_each (fun '(column, _) =>
                assert (contains (schema m) column)) os = Ok tt) as E;
        [|by rewrite E in Hv].
      apply for_each_Ok. eapply Forall_impl; [exact H|].
      intros [column o]. simpl. intros Hs. apply assert_Ok.
      by apply contains_true.
  - intros h' (self & Hr' & _ & ->)%bind_Ok.
    rewrite Hr in Hr'. injection Hr' as <-.
    eexists. rewrite lookup_insert_eq. split; [done|].
    unfold sql, params, types. cbn [must_be_bound model body new bound_body
      res_bind _sql _params _types]. by rewrite orderings_sql.
  - intros os1 os2 -> H1 H2. cbn [_sql]. rewrite !orderings_sql, map_app.
    rewrite concat_app; [|by destruct os1|by destruct os2].
    by rewrite !append_assoc.
Qed.

(** [order_by()] with no ordering is accepted: it is constructed, binds
    to every model, and its SQL is [ORDER BY] followed by nothing. *)
Theorem order_by_nothing depth (h : store) r m :
  order_by [] = Ok (new (OrderByCondition [])) /\
  (h !! r = Some (new (OrderByCondition [])) ->
   exists c,
     bind depth h r m = (<[ r := c ]> h, Ok tt) /\
     sql c = Ok "ORDER BY ").
Proof.
  split; [done|]. intros Hr. eexists. split.
  - by apply (bind_validate _ _ _ _ _ Hr).
  - done.
Qed.

(** ** Relation inclusion, further *)

(** [conditions()] and [destination()] of an [includes] raise the
    unbound-use error before [bind] and after a [bind] that raised.
    After a [bind] that returned, [destination()] is the destination
    model of the relation the name stands for in the bound model, the
    name is the one given, and the condition itself contributes the
    empty SQL with no parameters and no types. *)
Theorem includes_accessors depth (h : store) r m name extras h' :
  h !! r = Some (includes name extras) ->
  (conditions (includes name extras) =
     Raise (SpannerError (MustBeBound "conditions")) /\
   destination (includes name extras) =
     Raise (SpannerError (MustBeBound "destination")) /\
   relation_name (includes name extras) = Ok name) /\
  (forall e,
     bind depth h r m = (h', Raise e) ->
     h' !! r = Some (includes name extras)) /\
  (bind depth h r m = (h', Ok tt) ->
   exists c rel,
     h' !! r = Some c /\ relations m !! name = Some rel /\
     destination c = Ok (rel_destination rel) /\
     relation_name c = Ok name /\
     sql c = Ok "" /\ params c = Ok ∅ /\ types c = Ok ∅).
Proof.
  intros Hr. split; [done|]. split.
  - by intros e ->%bind_Raise.
  - intros (self & Hr' & Hv & ->)%bind_Ok.
    rewrite Hr in Hr'. injection Hr' as <-.
    destruct (validate_includes_relation _ _ _ _ _ _ Hv) as [rel Hrel].
    eexists _, rel. rewrite lookup_insert_eq. split; [done|].
    split; [done|]. unfold destination, relation_name. simpl.
    by rewrite Hrel.
Qed.

(** An extra condition that is itself an [includes] is validated
    against the destination model: its relation must be a relation of
    the destination, not of the origin. *)
Theorem nested_includes depth (h : store) r e m name nested_name :
  h !! r = Some (includes name (Some [e])) ->
  h !! e = Some (includes nested_name None) ->
  (snd (bind (S depth) h r m) = Ok tt <->
   exists rel,
     relations m !! name = Some rel /\
     is_Some (relations (rel_destination rel) !! nested_name)).
Proof.
  intros Hr He. rewrite bind_eq, Hr.
  assert (Hnested : forall m',
    validate_ref (S depth) h e m' = Ok tt <->
    is_Some (relations m' !! nested_name)).
  { intros m'. simpl. rewrite He.
    change (body (includes nested_name None))
      with (IncludesCondition nested_name [] None).
    rewrite validate_includes. split.
    - intros (rel & Hrel & _). eauto.
    - intros [rel Hrel]. eauto. }
  destruct (_validate _ _ _ _) as [[]|err] eqn:Hv.
  - split; [intros _|done].
    destruct (proj1 (validate_includes (validate_ref (S depth) h) name [e]
                       None m) Hv) as (rel & Hrel & Hall).
    exists rel. split; [done|]. apply Hnested.
    inversion Hall; assumption.
  - split; [done|]. intros (rel & Hrel & Hsome). exfalso.
    assert (_validate (S depth) h (body (includes name (Some [e]))) m
            = Ok tt) as E; [|by rewrite E in Hv].
    apply (validate_includes (validate_ref (S depth) h) name [e] None m).
    exists rel. split; [done|]. apply Forall_singleton. by apply Hnested.
Qed.

(** ** Cross-table equality, further *)

Lemma columns_equal_validate call m a dm b :
  validate_body call (ColumnsEqualCondition a dm b) m =
    match schema m !! a, schema dm !! b with
    | Some origin, Some dest =>
        assert (bool_decide (field_type origin = field_type dest) &&
                bool_decide (nullable origin = nullable dest))
    | _, _ => Raise AssertionError
    end.
Proof.
  simpl. destruct (schema m !! a) as [origin|] eqn:Ha.
  - rewrite (contains_Some _ _ _ Ha), (getitem_Some _ _ _ Ha). simpl.
    destruct (schema dm !! b) as [dest|] eqn:Hb.
    + by rewrite (contains_Some _ _ _ Hb), (getitem_Some _ _ _ Hb).
    + by rewrite (contains_None _ _ Hb).
  - by rewrite (contains_None _ _ Ha).
Qed.

(** The check of [columns_equal] is symmetric: the condition from [a] of
    one model to [b] of another binds to the first model exactly when
    the condition from [b] to [a] binds to the second, and both raise
    [AssertionError] otherwise. *)
Theorem columns_equal_symmetric depth (h : store) r1 r2 ma mb a b :
  h !! r1 = Some (columns_equal a mb b) ->
  h !! r2 = Some (columns_equal b ma a) ->
  snd (bind depth h r1 ma) = snd (bind depth h r2 mb) /\
  (snd (bind depth h r1 ma) = Ok tt \/
   snd (bind depth h r1 ma) = Raise AssertionError).
Proof.
  intros H1 H2. rewrite !bind_eq, H1, H2. unfold _validate.
  change (body (columns_equal a mb b)) with (ColumnsEqualCondition a mb b).
  change (body (columns_equal b ma a)) with (ColumnsEqualCondition b ma a).
  rewrite !columns_equal_validate.
  destruct (schema ma !! a) as [fa|], (schema mb !! b) as [fb|]; simpl;
    try (split; [done|by right]).
  rewrite (bool_decide_ext (field_type fb = field_type fa)
             (field_type fa = field_type fb)) by (split; congruence).
  rewrite (bool_decide_ext (nullable fb = nullable fa)
             (nullable fa = nullable fb)) by (split; congruence).
  destruct (bool_decide _ && bool_decide _); simpl; split; auto.
Qed.

(** ** Limit, further *)

(** [limit] takes a [bool] for an [int]: [limit(a, b)] with two booleans
    is constructed and binds to every model; [False] as offset is no
    offset, [True] is one, and both wire types stay [INT64]. *)
Theorem limit_accepts_bool (a b : bool) depth (h : store) r m :
  limit_offset (VBool a) (VBool b) =
    Ok (new (LimitCondition (VBool a) (VBool b))) /\
  (h !! r = Some (new (LimitCondition (VBool a) (VBool b))) ->
   exists c,
     bind depth h r m = (<[ r := c ]> h, Ok tt) /\
     sql c = Ok (if b then "LIMIT @limit OFFSET @offset" else "LIMIT @limit")
     /\
     (forall p, params c = Ok p ->
        p !! "limit" = Some (VBool a) /\
        p !! "offset" = (if b then Some (VBool true) else None)) /\
     (forall t, types c = Ok t ->
        t !! "limit" = Some (PbType INT64) /\
        t !! "offset" = (if b then Some (PbType INT64) else None))).
Proof.
  split; [done|]. intros Hr. eexists. split.
  - by apply (bind_validate _ _ _ _ _ Hr).
  - unfold sql, params, types. simpl. destruct b; simpl.
    + split; [done|]. split; intros ? [= <-]; split; by vm_compute.
    + split; [done|]. split; intros ? [= <-]; split; by vm_compute.
Qed.

(** ** Construction, further *)

(** The constructors report the first argument that has the wrong type:
    [limit] its limit before its offset, [order_by] the first direction
    that is not an [OrderType].  When [order_by] returns, the condition
    holds the orderings it was given, in their order. *)
Theorem construction_reports_first_offender :
  (forall value offset,
     isinstance_int value = false ->
     limit_offset value offset = Raise (SpannerError (NotInt value))) /\
  (forall value offset,
     isinstance_int value = true -> isinstance_int offset = false ->
     limit_offset value offset = Raise (SpannerError (NotInt offset))) /\
  (forall os column direction rest,
     is_order_type direction = false ->
     order_by (map (fun '(c, o) => (c, VOrder o)) os ++
               (column, direction) :: rest) =
       Raise (SpannerError (NotOrderType direction))) /\
  (forall orderings c,
     order_by orderings = Ok c ->
     exists os,
       c = new (OrderByCondition os) /\
       orderings = map (fun '(c, o) => (c, VOrder o)) os).
Proof.
  repeat split.
  - intros value offset Hv. unfold limit_offset. simpl. by rewrite Hv.
  - intros value offset Hv Ho. unfold limit_offset. simpl.
    by rewrite Hv, Ho.
  - intros os column direction rest Hd. unfold order_by.
    assert (check_orderings
              (map (fun '(c, o) => (c, VOrder o)) os ++
               (column, direction) :: rest) =
            Raise (SpannerError (NotOrderType direction))) as ->; [|done].
    induction os as [|[c o] os IH]; simpl.
    + by destruct direction.
    + by rewrite IH.
  - intros orderings c. unfold order_by.
    destruct (check_orderings orderings) as [os|e] eqn:Hc; [|done].
    intros [= <-]. exists os. split; [done|].
    revert os Hc. induction orderings as [|[column d] l IH]; intros os.
    + by intros [= <-].
    + simpl. destruct d; try done.
      destruct (check_orderings l) as [os'|] eqn:Hl; [|done].
      intros [= <-]. simpl. by rewrite <- (IH os').
Qed.

(** ** Equality of equality conditions *)

Lemma Value_nested_ind (P : Value -> Prop) :
  P VNone -> (forall b, P (VBool b)) -> (forall z, P (VInt z)) ->
  (forall s, P (VStr s)) -> (forall o, P (VOrder o)) ->
  (forall l, Forall P l -> P (VList l)) ->
  forall v, P v.
Proof.
  intros HNone HBool HInt HStr HOrder HList. fix IH 1.
  intros [|b|z|s|o|l];
    [exact HNone|apply HBool|apply HInt|apply HStr|apply HOrder|].
  apply HList. induction l as [|v l IHl]; constructor; [apply IH|exact IHl].
Qed.

Lemma py_eq_refl v : py_eq v v = true.
Proof.
  induction v as [|b|z|s|o|l IH] using Value_nested_ind; simpl.
  - done.
  - by destruct b.
  - apply Z.eqb_refl.
  - apply String.eqb_refl.
  - by destruct o.
  - induction IH as [|v l Hv _ IHl]; [done|]. by rewrite Hv, IHl.
Qed.

Lemma py_eq_sym a : forall b, py_eq a b = py_eq b a.
Proof.
  induction a as [| | | | |l IH] using Value_nested_ind;
    intros [| | | | |l']; simpl; try done;
    try apply Z.eqb_sym; try apply String.eqb_sym;
    try (by repeat match goal with
                   | x : bool |- _ => destruct x
                   | x : OrderType |- _ => destruct x
                   end).
  revert l'. induction IH as [|v l Hv _ IHl]; intros [|v' l']; try done.
  by rewrite Hv, IHl.
Qed.

(** [EqualityCondition.__eq__] compares the values only: two [equal_to]
    conditions with the same value are equal whatever their columns and
    whatever they are bound to, the comparison is symmetric between
    [equal_to] conditions, and an [equal_to] condition is unequal to a
    condition of any other class, [not_equal_to] with the same column
    and value included. *)
Theorem equality_ignores_column :
  (forall column1 column2 value bound1 bound2,
     EqualityCondition_eq
       (mkCondition bound1 (ComparisonCondition Equality column1 value))
       (mkCondition bound2 (ComparisonCondition Equality column2 value))
     = true) /\
  (forall column1 column2 value1 value2,
     EqualityCondition_eq (equal_to column1 value1)
                          (equal_to column2 value2) =
     EqualityCondition_eq (equal_to column2 value2)
                          (equal_to column1 value1)) /\
  (forall column value obj,
     (forall column' value',
        body obj <> ComparisonCondition Equality column' value') ->
     EqualityCondition_eq (equal_to column value) obj = false) /\
  (forall column value,
     EqualityCondition_eq (equal_to column value)
                          (not_equal_to column value) = false).
Proof.
  repeat split.
  - intros. apply py_eq_refl.
  - intros. apply py_eq_sym.
  - intros column value [mo b] Hb. unfold EqualityCondition_eq. simpl in *.
    destruct b as [| | | |op c v]; try done. destruct op; try done.
    by destruct (Hb c v).
Qed.

(** ** The index column schema *)

(** [primary_index_keys()] of [IndexColumnSchema] lists five distinct
    names, each of them a field declared by the class, so an [order_by]
    over the primary index keys, in any directions, binds to the
    schema. *)
Theorem primary_index_keys_declared depth (h : store) r directions :
  NoDup primary_index_keys /\
  Forall (fun k => is_Some (schema IndexColumnSchema !! k))
    primary_index_keys /\
  (h !! r = Some (new (OrderByCondition (zip primary_index_keys directions)))
   -> snd (bind depth h r IndexColumnSchema) = Ok tt).
Proof.
  assert (Hkeys : Forall (fun k => is_Some (schema IndexColumnSchema !! k))
                    primary_index_keys).
  { repeat constructor; by eexists. }
  split; [|split; [done|]].
  - apply (bool_decide_unpack _). by vm_compute.
  - intros Hr. rewrite bind_eq, Hr. unfold _validate.
    cbn [body new validate_body].
    assert (for_each (fun '(column, _) =>
              assert (contains (schema IndexColumnSchema) column))
              (zip primary_index_keys directions) = Ok tt) as ->; [|done].
    apply for_each_Ok, Forall_forall. intros [column o] Hin.
    apply elem_of_zip_l in Hin. rewrite Forall_forall in Hkeys.
    apply assert_Ok, contains_true. by apply Hkeys.
Qed.

(** ** The further properties at the sample models *)

Lemma bind_writes_receiver_only_witness :
  fst (bind 0 sample_store2 1 IndexColumnSchema) !! 2 = sample_store2 !! 2 /\
  dom (fst (bind 0 sample_store2 1 IndexColumnSchema)) = dom sample_store2.
Proof.
  apply (bind_writes_receiver_only 0 sample_store2 1 IndexColumnSchema 2).
  discriminate.
Defined.

Lemma rebind_keeps_or_replaces_witness :
  let c := mkCondition (Some IndexColumnSchema)
             (ComparisonCondition Equality "column_ordering" VNone) in
  bind 0 sample_store2 14 IndexSchema = (sample_store2, Raise AssertionError)
  /\ sample_store2 !! 14 = Some c /\
  sql c = Ok "index_columns.column_ordering IS NULL".
Proof.
  intros c.
  assert (Hb : bind 0 sample_store2 14 IndexSchema =
                 (sample_store2, Raise AssertionError)) by (by vm_compute).
  split; [exact Hb|].
  apply (proj1 (rebind_keeps_or_replaces 0 sample_store2 14 IndexColumnSchema
                  IndexSchema c sample_store2 eq_refl eq_refl)
           AssertionError Hb).
Defined.

Lemma bind_twice_same_model_witness :
  let h' := fst (bind 0 sample_store2 1 IndexColumnSchema) in
  bind 0 h' 1 IndexColumnSchema = (h', Ok tt).
Proof.
  intros h'.
  apply (bind_twice_same_model 0 sample_store2 1 IndexColumnSchema h').
  by vm_compute.
Defined.

Lemma bind_order_irrelevant_witness :
  fst (bind 0 (fst (bind 0 sample_store2 1 IndexColumnSchema)) 2 IndexSchema)
  = fst (bind 0 (fst (bind 0 sample_store2 2 IndexSchema)) 1
           IndexColumnSchema).
Proof.
  apply (bind_order_irrelevant 0 sample_store2 1 IndexColumnSchema 2
           IndexSchema).
  discriminate.
Defined.

Lemma bind_depth_monotone_witness :
  bind 5 sample_store 3 IndexSchema =
    (fst (bind 1 sample_store 3 IndexSchema), Ok tt).
Proof.
  apply (bind_depth_monotone 1 5 sample_store 3 IndexSchema); [lia|].
  by vm_compute.
Defined.

Lemma params_types_same_keys_witness :
  exists c p t,
    fst (bind 0 sample_store2 2 IndexSchema) !! 2 = Some c /\
    params c = Ok p /\ types c = Ok t /\ dom p = dom t.
Proof.
  apply (params_types_same_keys 0 sample_store2 2 IndexSchema).
  by vm_compute.
Defined.

Lemma segment_fixed_by_class_witness :
  exists c',
    fst (bind 0 sample_store2 4 IndexSchema) !! 4 = Some c' /\
    segment c' = ORDER_BY.
Proof.
  apply (proj2 (proj2 (proj2 (proj2 segment_fixed_by_class))) 0 sample_store2
           4 IndexSchema
           (new (OrderByCondition
                   [("table_name", ASC); ("index_name", DESC)]))).
  reflexivity.
Defined.

Lemma plain_comparison_bind_witness :
  exists c f,
    fst (bind 0 sample_store2 1 IndexColumnSchema) !! 1 = Some c /\
    schema IndexColumnSchema !! "ordinal_position" = Some f /\
    sql c = Ok "index_columns.ordinal_position > @ordinal_position" /\
    params c = Ok {[ "ordinal_position" := VInt 3 ]} /\
    types c = Ok {[ "ordinal_position" := grpc_type f ]}.
Proof.
  apply (proj2 (proj2 (plain_comparison_bind 0 sample_store2 1
                         IndexColumnSchema GreaterThan "ordinal_position"
                         (VInt 3) eq_refl eq_refl))).
  by vm_compute.
Defined.

Lemma unknown_column_fails_witness :
  bind 0 sample_store 5 IndexColumnSchema =
    (sample_store, Raise AssertionError).
Proof.
  apply (unknown_column_fails 0 sample_store 5 IndexColumnSchema
           (equal_to "parent_table_name" VNone) "parent_table_name");
    reflexivity.
Defined.

Lemma list_comparison_bind_witness :
  exists c f,
    fst (bind 0 sample_store2 2 IndexSchema) !! 2 = Some c /\
    schema IndexSchema !! "table_name" = Some f /\
    sql c = Ok "indexes.table_name IN UNNEST(@table_name)" /\
    params c = Ok {[ "table_name" := VList [VStr "a"; VStr "b"] ]} /\
    types c = Ok {[ "table_name" := grpc_list_type f ]}.
Proof.
  apply (proj2 (proj2 (list_comparison_bind 0 sample_store2 2 IndexSchema
                         InList "table_name" (VList [VStr "a"; VStr "b"])
                         eq_refl eq_refl))).
  by vm_compute.
Defined.

Lemma list_comparison_first_rejected_witness :
  bind 0 sample_store2 3 IndexSchema = (sample_store2, Raise AssertionError).
Proof.
  apply (list_comparison_first_rejected 0 sample_store2 3 IndexSchema InList
           "table_name" (StringField false) [VStr "a"] (VInt 1) [VStr "b"]);
    try reflexivity.
  by repeat constructor.
Defined.

Lemma nullable_falls_back_witness :
  snd (bind 0 sample_store2 10 IndexSchema) =
  snd (bind 0 sample_store2 11 IndexSchema).
Proof.
  apply (nullable_falls_back 0 sample_store2 10 11 IndexSchema Equality
           LessThan "IS" "index_name" (VStr "x")); try reflexivity.
  discriminate.
Defined.

Lemma order_by_bind_witness :
  exists c,
    fst (bind 0 sample_store2 4 IndexSchema) !! 4 = Some c /\
    sql c = Ok "ORDER BY indexes.table_name ASC, indexes.index_name DESC" /\
    params c = Ok ∅ /\ types c = Ok ∅.
Proof.
  apply (proj1 (proj2 (order_by_bind 0 sample_store2 4 IndexSchema
                         [("table_name", ASC); ("index_name", DESC)]
                         eq_refl))).
  by vm_compute.
Defined.

Lemma order_by_nothing_witness :
  exists c,
    bind 0 sample_store2 12 IndexSchema = (<[ 12 := c ]> sample_store2, Ok tt)
    /\ sql c = Ok "ORDER BY ".
Proof.
  apply (proj2 (order_by_nothing 0 sample_store2 12 IndexSchema)).
  reflexivity.
Defined.

Lemma includes_accessors_witness :
  exists c rel,
    fst (bind 1 sample_store 3 IndexSchema) !! 3 = Some c /\
    relations IndexSchema !! "columns" = Some rel /\
    destination c = Ok (rel_destination rel) /\
    relation_name c = Ok "columns" /\
    sql c = Ok "" /\ params c = Ok ∅ /\ types c = Ok ∅.
Proof.
  apply (proj2 (proj2 (includes_accessors 1 sample_store 3 IndexSchema
                         "columns" (Some [1; 2])
                         (fst (bind 1 sample_store 3 IndexSchema))
                         eq_refl))).
  by vm_compute.
Defined.

Lemma nested_includes_witness :
  snd (bind 1 sample_store2 7 IndexSchema) = Ok tt <->
  exists rel,
    relations IndexSchema !! "columns" = Some rel /\
    is_Some (relations (rel_destination rel) !! "nested").
Proof.
  apply (nested_includes 0 sample_store2 7 8 IndexSchema "columns" "nested");
    reflexivity.
Defined.

Lemma columns_equal_symmetric_witness :
  snd (bind 0 sample_store2 5 IndexSchema) =
  snd (bind 0 sample_store2 6 IndexColumnSchema).
Proof.
  apply (columns_equal_symmetric 0 sample_store2 5 6 IndexSchema
           IndexColumnSchema "index_name" "index_name"); reflexivity.
Defined.

Lemma limit_accepts_bool_witness :
  exists c,
    bind 0 sample_store2 9 IndexSchema = (<[ 9 := c ]> sample_store2, Ok tt)
    /\ sql c = Ok "LIMIT @limit".
Proof.
  destruct (proj2 (limit_accepts_bool true false 0 sample_store2 9
                     IndexSchema) eq_refl) as (c & Hb & Hs & _).
  exists c. by split.
Defined.

Lemma construction_reports_first_offender_witness :
  limit_offset (VStr "10") (VStr "5") =
    Raise (SpannerError (NotInt (VStr "10"))) /\
  order_by [("a", VOrder ASC); ("b", VStr "DESC"); ("c", VNone)] =
    Raise (SpannerError (NotOrderType (VStr "DESC"))).
Proof.
  destruct construction_reports_first_offender as (Hl & _ & Ho & _).
  split.
  - by apply Hl.
  - by apply (Ho [("a", ASC)] "b" (VStr "DESC") [("c", VNone)]).
Defined.

Lemma equality_ignores_column_witness :
  EqualityCondition_eq (equal_to "table_name" (VStr "x"))
    (new (LimitCondition (VInt 1) (VInt 0))) = false.
Proof.
  apply (proj1 (proj2 (proj2 equality_ignores_column))). discriminate.
Defined.

Lemma primary_index_keys_declared_witness :
  snd (bind 0 sample_store2 13 IndexColumnSchema) = Ok tt.
Proof.
  apply (proj2 (proj2 (primary_index_keys_declared 0 sample_store2 13
                         [ASC; DESC; ASC; DESC; ASC]))).
  reflexivity.
Defined.
